(** * RuntimeImageLoader: the image import utilities

    A shallow embedding of [FRuntimeImageUtils] (RuntimeImageUtils.cpp) and of
    [FTransformImageParams] (RuntimeImageReader.h), followed by the properties
    the specification states about them.

    Conventions.
    - [int32], [int64], [uint8], [uint16] values are [Z]; the two places where
      the C++ arithmetic can leave the mathematical integers (the shift that
      computes the maximum resolution, the comparison of an [int32] with a
      [size_t]) are written out with their wrap-around.
    - An out-parameter that the code only ever assigns ([FString& OutError]) is
      returned as [option FString]: [Some s] when the call assigned [s] last,
      [None] when it never assigned it.  [FRuntimeImageData& OutImage] is
      threaded through, since its fields are updated one by one.
    - Calls into the engine are recorded in a list of [ECall], so that "was
      never called" and "was called before" are statements about a result.
    - Engine and helper code that is not part of the two source files is taken
      as a parameter of the section that models the code. *)

From Stdlib Require Import ZArith List String Ascii Bool Lia.
From Stdlib Require Import Strings.Byte DecimalString.
Import ListNotations.
Open Scope Z_scope.
Set Warnings "-notation-for-abbreviation".

(** ** Machine arithmetic *)

Definition wrap_int32 (z : Z) : Z := (z + 2 ^ 31) mod 2 ^ 32 - 2 ^ 31.

(** [a << n] on [int32].  The count is reduced to five bits as the hardware
    does; C++ leaves counts outside [0, 31] undefined, and the properties below
    are stated for counts in range. *)
Definition int32_shl (a n : Z) : Z := wrap_int32 (Z.shiftl a (n mod 32)).

(** The conversion of an [int32] operand to [size_t] that [Length >= sizeof(T)]
    performs. *)
Definition to_size_t (z : Z) : Z := z mod 2 ^ 64.

(** ** Strings *)

Definition FString := string.
Bind Scope string_scope with FString.

(** [%d] of [FString::Printf]. *)
Definition FromInt (z : Z) : FString := NilZero.string_of_int (Z.to_int z).

Definition IsEmpty (s : FString) : bool :=
  match s with EmptyString => true | String _ _ => false end.

(** ** Engine enumerations *)

Module EImageFormat.
Inductive t := Invalid | PNG | JPEG | GrayscaleJPEG | BMP | ICO | EXR | ICNS.
End EImageFormat.

Module ERGBFormat.
Inductive t := Invalid | RGBA | BGRA | Gray.
End ERGBFormat.

Inductive ETextureSourceFormat :=
| TSF_Invalid | TSF_G8 | TSF_BGRA8 | TSF_BGRE8 | TSF_RGBA16 | TSF_RGBA16F
| TSF_RGBA8 | TSF_RGBE8 | TSF_G16 | TSF_MAX.

(** The enumerators of [EPixelFormat] that the code names, and some of their
    neighbours. *)
Inductive EPixelFormat :=
| PF_Unknown | PF_A32B32G32R32F | PF_B8G8R8A8 | PF_G8 | PF_G16 | PF_DXT1
| PF_DXT3 | PF_DXT5 | PF_FloatRGB | PF_FloatRGBA | PF_R16G16B16A16_UINT
| PF_R16G16B16A16_SINT.

Inductive TextureCompressionSettings :=
| TC_Default | TC_Normalmap | TC_Masks | TC_Grayscale | TC_Displacementmap
| TC_VectorDisplacementmap | TC_HDR | TC_EditorIcon | TC_Alpha
| TC_DistanceFieldFont | TC_HDR_Compressed | TC_BC7.

Definition is_TSF_Invalid (f : ETextureSourceFormat) : bool :=
  match f with TSF_Invalid => true | _ => false end.

Definition is_TC_Grayscale (c : TextureCompressionSettings) : bool :=
  match c with TC_Grayscale => true | _ => false end.

(** ** The decoded image *)

(** Modelled from the spec: [FRuntimeImageData] is declared in
    RuntimeImageData.h, which is not among the sources.  The fields are the
    ones of the spec's DecodedImage (width, height, pixel format tag, raw pixel
    bytes, colour-space flag, compression-settings hint, timestamp), under the
    names the code uses for them.  [FDateTime] is its tick count. *)
Record FRuntimeImageData := mkImage {
  RawData : list byte;
  Format : ETextureSourceFormat;
  CompressionSettings : TextureCompressionSettings;
  SizeX : Z;
  SizeY : Z;
  SRGB : bool;
  ModificationTime : Z
}.

(** Modelled from the spec: [FRuntimeImageData::Init2D] is declared in
    RuntimeImageData.h, which is not among the sources.  It receives the
    width, the height, the format tag and the pixel data and stores them in the
    DecodedImage; the other fields keep their values. *)
Definition Init2D (img : FRuntimeImageData) (InSizeX InSizeY : Z)
    (InFormat : ETextureSourceFormat) (InData : list byte) : FRuntimeImageData :=
  {| RawData := InData; Format := InFormat;
     CompressionSettings := CompressionSettings img;
     SizeX := InSizeX; SizeY := InSizeY;
     SRGB := SRGB img; ModificationTime := ModificationTime img |}.

Definition set_SRGB (img : FRuntimeImageData) (b : bool) : FRuntimeImageData :=
  {| RawData := RawData img; Format := Format img;
     CompressionSettings := CompressionSettings img;
     SizeX := SizeX img; SizeY := SizeY img;
     SRGB := b; ModificationTime := ModificationTime img |}.

Definition set_RawData (img : FRuntimeImageData) (d : list byte) : FRuntimeImageData :=
  {| RawData := d; Format := Format img;
     CompressionSettings := CompressionSettings img;
     SizeX := SizeX img; SizeY := SizeY img;
     SRGB := SRGB img; ModificationTime := ModificationTime img |}.

Definition set_ModificationTime (img : FRuntimeImageData) (t : Z) : FRuntimeImageData :=
  {| RawData := RawData img; Format := Format img;
     CompressionSettings := CompressionSettings img;
     SizeX := SizeX img; SizeY := SizeY img;
     SRGB := SRGB img; ModificationTime := t |}.

(** ** Engine interfaces *)

(** An image wrapper on which [SetCompressed] has returned true: what its
    getters answer from then on. *)
Record FLoadedImage := {
  GetWidth : Z;
  GetHeight : Z;
  GetBitDepth : Z;
  GetFormat : ERGBFormat.t;
  GetRaw : ERGBFormat.t -> Z -> option (list byte)
}.

(** [IImageWrapper].  [SetCompressed Buffer Length] is [None] when the call
    returns false. *)
Record IImageWrapper := {
  SetCompressed : list byte -> Z -> option FLoadedImage
}.

(** [IImageWrapperModule].  [CreateImageWrapper] returns a shared pointer, and
    [None] is the pointer for which [IsValid()] is false. *)
Record IImageWrapperModule := {
  CreateImageWrapper : EImageFormat.t -> option IImageWrapper
}.

(** The fields of [FTGAHelpers::FTGAFileHeader] that the importer reads. *)
Record FTGAFileHeader := {
  ColorMapType : Z;
  ImageTypeCode : Z;
  Width : Z;
  Height : Z;
  BitsPerPixel : Z
}.

(** [FTGAHelpers] (Helpers/TGAHelpers.h, not among the sources): the size of
    the header struct, the view of the first bytes of a buffer as a header
    (the cast [(FTGAFileHeader* )Buffer]), and [DecompressTGA], which returns
    its boolean, the image it leaves in [OutImage] and what it assigned to
    [OutError], if anything. *)
Record FTGAHelpers := {
  sizeof_FTGAFileHeader : Z;
  AsTGAFileHeader : list byte -> FTGAFileHeader;
  DecompressTGA : FTGAFileHeader -> list byte -> FRuntimeImageData ->
                  bool * FRuntimeImageData * option FString
}.

(** [FPNGHelpers::FillZeroAlphaPNGData] (Helpers/PNGHelpers.h, not among the
    sources) works in place on the pixel bytes it is pointed at. *)
Record FPNGHelpers := {
  FillZeroAlphaPNGData : Z -> Z -> ETextureSourceFormat -> list byte -> list byte
}.

Record FFileStatData := {
  CreationTime : Z;
  StatModificationTime : Z
}.

(** [IFileManager] and [FFileHelper::LoadFileToArray]. *)
Record IFileManager := {
  FileExists : FString -> bool;
  FileSize : FString -> Z;
  GetStatData : FString -> FFileStatData;
  LoadFileToArray : FString -> option (list byte)
}.

(** The part of [UTexture2D] that [CreateDummyTexture] fills in. *)
Record FTexture2DMipMap := {
  MipSizeX : Z;
  MipSizeY : Z;
  BulkData : list byte
}.

Record FTexturePlatformData := {
  PlatformSizeX : Z;
  PlatformSizeY : Z;
  PixelFormat : EPixelFormat;
  Mips : list FTexture2DMipMap
}.

Record UTexture2D := {
  ObjectName : FString;
  NeverStream : bool;
  PlatformData : FTexturePlatformData
}.

(** What [CreateDummyTexture] asks of the engine: [IsInGameThread()],
    [FPaths::GetBaseFilename], [MakeUniqueObjectName] in the transient package
    and the [BlockBytes] column of the table [GPixelFormats]. *)
Record FEngine := {
  IsInGameThread : bool;
  GetBaseFilename : FString -> FString;
  MakeUniqueObjectName : FString -> FString;
  BlockBytes : EPixelFormat -> Z
}.

(** The calls into the engine that the properties speak about. *)
Inductive ECall :=
| CallCreateImageWrapper (f : EImageFormat.t)
| CallSetCompressed (f : EImageFormat.t)
| CallGetRaw (f : EImageFormat.t)
| CallDecompressTGA
| CallFileExists (p : FString)
| CallFileSize (p : FString)
| CallLoadFileToArray (p : FString)
| CallGetStatData (p : FString).

(** What a call of [ImportBufferAsImage] leaves behind. *)
Record FImportResult := {
  Returned : bool;
  OutImage : FRuntimeImageData;
  OutError : option FString;
  Calls : list ECall
}.

Definition after (cs : list ECall) (r : FImportResult) : FImportResult :=
  {| Returned := Returned r; OutImage := OutImage r; OutError := OutError r;
     Calls := cs ++ Calls r |}.

(** [OutError = msg; return false;] *)
Definition fail (img : FRuntimeImageData) (msg : FString) : FImportResult :=
  {| Returned := false; OutImage := img; OutError := Some msg; Calls := [] |}.

Definition INDEX_NONE : Z := -1.

(** What a call of [ImportFileAsImage] leaves behind: either the [check] on
    the file size stopped the program, or the function returned. *)
Inductive FFileImportResult :=
| CheckFailed (cs : list ECall)
| Finished (Image : FRuntimeImageData) (Error : option FString) (cs : list ECall).

(** ** RuntimeImageUtils.cpp *)

Module FRuntimeImageUtils.

Section Code.

(** [GMaxTextureMipCount], the RHI global. *)
Variable GMaxTextureMipCount : Z.
(** [FMath::IsPowerOfTwo] at [int32]. *)
Variable FMath_IsPowerOfTwo : Z -> bool.
Variable ImageWrapperModule : IImageWrapperModule.
Variable TGAHelpers : FTGAHelpers.
Variable PNGHelpers : FPNGHelpers.
Variable FileManager : IFileManager.
Variable Engine : FEngine.

Definition MAX_TEXTURE_SIZE : Z := 8192.

Definition MaximumSupportedResolution : Z :=
  int32_shl 1 (GMaxTextureMipCount - 1).

(** The function keeps a flag [bValid] that three tests in a row may clear. *)
Definition IsImportResolutionValid (Width Height : Z) (bAllowNonPowerOfTwo : bool) : bool :=
  let bValid := true in
  let bValid :=
    if (Width >? MaximumSupportedResolution) || (Height >? MaximumSupportedResolution)
    then false else bValid in
  let bIsPowerOfTwo := FMath_IsPowerOfTwo Width && FMath_IsPowerOfTwo Height in
  let bValid :=
    if negb bAllowNonPowerOfTwo && negb bIsPowerOfTwo then false else bValid in
  let bValid :=
    if (Width >? MAX_TEXTURE_SIZE) || (Height >? MAX_TEXTURE_SIZE)
    then false else bValid in
  bValid.

(** [FString::Printf(TEXT("Texture resolution is not supported: %d x %d"), W, H)] *)
Definition ResolutionError (W H : Z) : FString :=
  ("Texture resolution is not supported: " ++ FromInt W ++ " x " ++ FromInt H)%string.

(** [CreateImageWrapper(f)] followed by
    [Wrapper.IsValid() && Wrapper->SetCompressed(Buffer, Length)]. *)
Definition TryWrapper (f : EImageFormat.t) (Buffer : list byte) (Length : Z)
  : option FLoadedImage * list ECall :=
  match CreateImageWrapper ImageWrapperModule f with
  | None => (None, [CallCreateImageWrapper f])
  | Some Wrapper =>
      (SetCompressed Wrapper Buffer Length,
       [CallCreateImageWrapper f; CallSetCompressed f])
  end.

(** "Select the texture's source format" of the PNG block: the values of
    [TextureFormat], [Format] and [BitDepth] after the two nested tests. *)
Definition SelectPNGFormat (Format0 : ERGBFormat.t) (BitDepth0 : Z)
  : ETextureSourceFormat * ERGBFormat.t * Z :=
  match Format0 with
  | ERGBFormat.Gray =>
      if BitDepth0 <=? 8 then (TSF_G8, ERGBFormat.Gray, 8)
      else if BitDepth0 =? 16 then (TSF_RGBA16, ERGBFormat.RGBA, 16)
      else (TSF_Invalid, Format0, BitDepth0)
  | ERGBFormat.RGBA | ERGBFormat.BGRA =>
      if BitDepth0 <=? 8 then (TSF_BGRA8, ERGBFormat.BGRA, 8)
      else if BitDepth0 =? 16 then (TSF_RGBA16, ERGBFormat.RGBA, 16)
      else (TSF_Invalid, Format0, BitDepth0)
  | _ => (TSF_Invalid, Format0, BitDepth0)
  end.

(** The body of the PNG block, entered once [SetCompressed] succeeded. *)
Definition ImportPNG (Png : FLoadedImage) (Image : FRuntimeImageData) : FImportResult :=
  if negb (IsImportResolutionValid (GetWidth Png) (GetHeight Png) true) then
    fail Image (ResolutionError (GetWidth Png) (GetHeight Png))
  else
    let '(TextureFormat, RGBFormat, BitDepth) :=
      SelectPNGFormat (GetFormat Png) (GetBitDepth Png) in
    if BitDepth =? 16 then
      fail Image "16bit PNG file is not supported"
    else if is_TSF_Invalid TextureFormat then
      fail Image "PNG file contains data in an unsupported format."
    else
      match GetRaw Png RGBFormat BitDepth with
      | Some RawPNG =>
          let Image := Init2D Image (GetWidth Png) (GetHeight Png) TextureFormat RawPNG in
          let Image := set_SRGB Image (BitDepth <? 16) in
          let Image :=
            set_RawData Image
              (FillZeroAlphaPNGData PNGHelpers (SizeX Image) (SizeY Image)
                 (Format Image) (RawData Image)) in
          {| Returned := true; OutImage := Image; OutError := None;
             Calls := [CallGetRaw EImageFormat.PNG] |}
      | None =>
          after [CallGetRaw EImageFormat.PNG] (fail Image "Failed to decode PNG.")
      end.

Definition SelectJPEGFormat (Format0 : ERGBFormat.t) (BitDepth0 : Z)
  : ETextureSourceFormat * ERGBFormat.t * Z :=
  match Format0 with
  | ERGBFormat.Gray =>
      if BitDepth0 <=? 8 then (TSF_G8, ERGBFormat.Gray, 8)
      else (TSF_Invalid, Format0, BitDepth0)
  | ERGBFormat.RGBA =>
      if BitDepth0 <=? 8 then (TSF_BGRA8, ERGBFormat.BGRA, 8)
      else (TSF_Invalid, Format0, BitDepth0)
  | _ => (TSF_Invalid, Format0, BitDepth0)
  end.

Definition ImportJPEG (Jpeg : FLoadedImage) (Image : FRuntimeImageData) : FImportResult :=
  if negb (IsImportResolutionValid (GetWidth Jpeg) (GetHeight Jpeg) true) then
    fail Image (ResolutionError (GetWidth Jpeg) (GetHeight Jpeg))
  else
    let '(TextureFormat, RGBFormat, BitDepth) :=
      SelectJPEGFormat (GetFormat Jpeg) (GetBitDepth Jpeg) in
    if is_TSF_Invalid TextureFormat then
      fail Image "JPEG file contains data in an unsupported format."
    else
      match GetRaw Jpeg RGBFormat BitDepth with
      | Some RawJPEG =>
          let Image := Init2D Image (GetWidth Jpeg) (GetHeight Jpeg) TextureFormat RawJPEG in
          let Image := set_SRGB Image (BitDepth <? 16) in
          {| Returned := true; OutImage := Image; OutError := None;
             Calls := [CallGetRaw EImageFormat.JPEG] |}
      | None =>
          after [CallGetRaw EImageFormat.JPEG] (fail Image "Failed to decode JPEG.")
      end.

Definition ImportBMP (Bmp : FLoadedImage) (Image : FRuntimeImageData) : FImportResult :=
  if negb (IsImportResolutionValid (GetWidth Bmp) (GetHeight Bmp) true) then
    fail Image (ResolutionError (GetWidth Bmp) (GetHeight Bmp))
  else
    match GetRaw Bmp (GetFormat Bmp) (GetBitDepth Bmp) with
    | Some RawBMP =>
        {| Returned := true;
           OutImage := Init2D Image (GetWidth Bmp) (GetHeight Bmp) TSF_BGRA8 RawBMP;
           OutError := None;
           Calls := [CallGetRaw EImageFormat.BMP] |}
    | None =>
        after [CallGetRaw EImageFormat.BMP] (fail Image "Failed to decode BMP.")
    end.

(** The condition of the TGA [if]: the length test, then the four accepted
    combinations of colour-map type, image type and bits per pixel. *)
Definition IsSupportedTGA (Length : Z) (TGA : FTGAFileHeader) : bool :=
  (to_size_t Length >=? sizeof_FTGAFileHeader TGAHelpers) &&
  (((ColorMapType TGA =? 0) && (ImageTypeCode TGA =? 2)) ||
   ((ColorMapType TGA =? 0) && (ImageTypeCode TGA =? 3)) ||
   ((ColorMapType TGA =? 0) && (ImageTypeCode TGA =? 10)) ||
   ((ColorMapType TGA =? 1) && (ImageTypeCode TGA =? 1) && (BitsPerPixel TGA =? 8))).

(** The then-branch of the TGA [if]. *)
Definition ImportTGA (TGA : FTGAFileHeader) (Buffer : list byte)
    (Image : FRuntimeImageData) : FImportResult :=
  if negb (IsImportResolutionValid (Width TGA) (Height TGA) true) then
    fail Image (ResolutionError (Width TGA) (Height TGA))
  else
    let '(bResult, Image, TGAError) := DecompressTGA TGAHelpers TGA Buffer Image in
    if bResult then
      let Image :=
        if is_TC_Grayscale (CompressionSettings Image) && (ImageTypeCode TGA =? 3)
        then set_SRGB Image false else Image in
      {| Returned := true; OutImage := Image; OutError := TGAError;
         Calls := [CallDecompressTGA] |}
    else
      after [CallDecompressTGA] (fail Image "Failed to decompress TGA.").

Definition UnsupportedTGAError : FString :=
  "TGA file contains data in an unsupported format.".

Definition ImportBufferAsImage (Buffer : list byte) (Length : Z)
    (Image : FRuntimeImageData) : FImportResult :=
  match TryWrapper EImageFormat.PNG Buffer Length with
  | (Some Png, c1) => after c1 (ImportPNG Png Image)
  | (None, c1) =>
  match TryWrapper EImageFormat.JPEG Buffer Length with
  | (Some Jpeg, c2) => after (c1 ++ c2) (ImportJPEG Jpeg Image)
  | (None, c2) =>
  match TryWrapper EImageFormat.BMP Buffer Length with
  | (Some Bmp, c3) => after (c1 ++ c2 ++ c3) (ImportBMP Bmp Image)
  | (None, c3) =>
      let TGA := AsTGAFileHeader TGAHelpers Buffer in
      after (c1 ++ c2 ++ c3)
        (if IsSupportedTGA Length TGA then ImportTGA TGA Buffer Image
         else fail Image UnsupportedTGAError)
  end end end.

Definition MAX_FILESIZE_BYTES : Z := 999999999.

(** [FString::Printf(TEXT("Image does not exist: %s"), *ImageFilename)] *)
Definition NotFoundError (ImageFilename : FString) : FString :=
  ("Image does not exist: " ++ ImageFilename)%string.

(** [FString::Printf(TEXT("Image filesize > %d MBs): %s"), MAX_FILESIZE_BYTES,
    *ImageFilename)]: [%d] takes the low 32 bits of the [int64] it is given. *)
Definition TooLargeError (ImageFilename : FString) : FString :=
  ("Image filesize > " ++ FromInt (wrap_int32 MAX_FILESIZE_BYTES) ++ " MBs): "
     ++ ImageFilename)%string.

(** [FString::Printf(TEXT("Image I/O error: %s"), *ImageFilename)] *)
Definition IOError (ImageFilename : FString) : FString :=
  ("Image I/O error: " ++ ImageFilename)%string.

Definition ImportFileAsImage (ImageFilename : FString) (Image : FRuntimeImageData)
  : FFileImportResult :=
  if negb (FileExists FileManager ImageFilename) then
    Finished Image (Some (NotFoundError ImageFilename)) [CallFileExists ImageFilename]
  else
    let ImageFileSizeBytes := FileSize FileManager ImageFilename in
    if ImageFileSizeBytes =? INDEX_NONE then
      CheckFailed [CallFileExists ImageFilename; CallFileSize ImageFilename]
    else if ImageFileSizeBytes >? MAX_FILESIZE_BYTES then
      Finished Image (Some (TooLargeError ImageFilename))
        [CallFileExists ImageFilename; CallFileSize ImageFilename]
    else
      match LoadFileToArray FileManager ImageFilename with
      | None =>
          Finished Image (Some (IOError ImageFilename))
            [CallFileExists ImageFilename; CallFileSize ImageFilename;
             CallLoadFileToArray ImageFilename]
      | Some FileBytes =>
          let ImageBuffer := FileBytes ++ [x00] in
          let ImageFileStatData := GetStatData FileManager ImageFilename in
          let Image :=
            set_ModificationTime Image
              (Z.max (CreationTime ImageFileStatData)
                     (StatModificationTime ImageFileStatData)) in
          let r :=
            ImportBufferAsImage ImageBuffer (Z.of_nat (List.length ImageBuffer) - 1) Image in
          Finished (OutImage r) (OutError r)
            ([CallFileExists ImageFilename; CallFileSize ImageFilename;
              CallLoadFileToArray ImageFilename; CallGetStatData ImageFilename]
             ++ Calls r)
      end.

(** The [switch] of [CreateDummyTexture]. *)
Definition SelectPixelFormat (ImageFormat : ETextureSourceFormat) : EPixelFormat :=
  match ImageFormat with
  | TSF_G8 => PF_G8
  | TSF_G16 => PF_G16
  | TSF_BGRA8 => PF_B8G8R8A8
  | TSF_BGRE8 => PF_B8G8R8A8
  | TSF_RGBA16 => PF_R16G16B16A16_SINT
  | TSF_RGBA16F => PF_FloatRGBA
  | _ => PF_B8G8R8A8
  end.

(** [None] when [check(IsInGameThread())] fails.  The bulk data of the mip
    is copied from [DummyBytes], a static array that only ever holds zeros. *)
Definition CreateDummyTexture (ImageFilename : FString)
    (ImageFormat : ETextureSourceFormat) : option UTexture2D :=
  if negb (IsInGameThread Engine) then None
  else
    let BaseFilename := GetBaseFilename Engine ImageFilename in
    let PixelFormat := SelectPixelFormat ImageFormat in
    let MipSizeX := 1 in
    let MipSizeY := 1 in
    let MipBytes := (MipSizeX * MipSizeY * BlockBytes Engine PixelFormat) mod 2 ^ 32 in
    Some {| ObjectName := MakeUniqueObjectName Engine BaseFilename;
            NeverStream := true;
            PlatformData :=
              {| PlatformSizeX := 1;
                 PlatformSizeY := 1;
                 PixelFormat := PixelFormat;
                 Mips := [ {| MipSizeX := MipSizeX; MipSizeY := MipSizeY;
                              BulkData := repeat x00 (Z.to_nat MipBytes) |} ] |} |}.

End Code.

End FRuntimeImageUtils.

(** ** RuntimeImageReader.h *)

Module FTransformImageParams.

Record t := {
  bForUI : bool;
  PercentSizeX : Z;
  PercentSizeY : Z
}.

(** The member initialisers of the struct. *)
Definition Default : t :=
  {| bForUI := true; PercentSizeX := 100; PercentSizeY := 100 |}.

Definition IsPercentSizeValid (p : t) : bool :=
  (PercentSizeX p >? 0) && (PercentSizeX p <? 100) &&
  (PercentSizeY p >? 0) && (PercentSizeY p <? 100).

End FTransformImageParams.

(** ** Concrete engines

    Small stand-ins for the engine interfaces, on which the model runs. *)

Module Samples.

(** [FMath::IsPowerOfTwo] by the usual bit trick, [(Value & (Value - 1)) == 0]. *)
Definition IsPowerOfTwo (Value : Z) : bool :=
  Z.land Value (wrap_int32 (Value - 1)) =? 0.

Definition u8 (Buffer : list byte) (i : nat) : Z :=
  Z.of_N (Byte.to_N (nth i Buffer x00)).

Definition u16 (Buffer : list byte) (i : nat) : Z :=
  u8 Buffer i + 256 * u8 Buffer (S i).

(** A toy container: one tag byte, then width and height (two bytes each,
    low byte first), the bit depth, the channel layout and the pixels. *)
Definition LayoutOfByte (b : Z) : ERGBFormat.t :=
  if b =? 0 then ERGBFormat.RGBA
  else if b =? 1 then ERGBFormat.BGRA
  else if b =? 2 then ERGBFormat.Gray
  else ERGBFormat.Invalid.

Definition ToyLoaded (Buffer : list byte) : FLoadedImage :=
  {| GetWidth := u16 Buffer 1;
     GetHeight := u16 Buffer 3;
     GetBitDepth := u8 Buffer 5;
     GetFormat := LayoutOfByte (u8 Buffer 6);
     GetRaw := fun _ _ =>
       match skipn 7 Buffer with
       | [] => None
       | Pixels => Some Pixels
       end |}.

Definition ToyWrapper (Tag : Z) : IImageWrapper :=
  {| SetCompressed := fun Buffer Length =>
       if (7 <=? Length) && (u8 Buffer 0 =? Tag) then Some (ToyLoaded Buffer)
       else None |}.

Definition ToyWrappers : IImageWrapperModule :=
  {| CreateImageWrapper := fun f =>
       match f with
       | EImageFormat.PNG => Some (ToyWrapper 137)
       | EImageFormat.JPEG => Some (ToyWrapper 255)
       | EImageFormat.BMP => Some (ToyWrapper 66)
       | _ => None
       end |}.

Definition set_CompressionSettings (img : FRuntimeImageData)
    (c : TextureCompressionSettings) : FRuntimeImageData :=
  {| RawData := RawData img; Format := Format img;
     CompressionSettings := c;
     SizeX := SizeX img; SizeY := SizeY img;
     SRGB := SRGB img; ModificationTime := ModificationTime img |}.

(** The 18-byte TGA header, and a decoder that copies the bytes after it:
    8-bit images become [TSF_G8] with the grayscale compression setting,
    24- and 32-bit ones [TSF_BGRA8], anything else fails. *)
Definition ToyTGA : FTGAHelpers :=
  {| sizeof_FTGAFileHeader := 18;
     AsTGAFileHeader := fun Buffer =>
       {| ColorMapType := u8 Buffer 1;
          ImageTypeCode := u8 Buffer 2;
          Width := u16 Buffer 12;
          Height := u16 Buffer 14;
          BitsPerPixel := u8 Buffer 16 |};
     DecompressTGA := fun TGA Buffer Image =>
       if BitsPerPixel TGA =? 8 then
         (true,
          set_CompressionSettings
            (Init2D Image (Width TGA) (Height TGA) TSF_G8 (skipn 18 Buffer))
            TC_Grayscale,
          None)
       else if (BitsPerPixel TGA =? 24) || (BitsPerPixel TGA =? 32) then
         (true, Init2D Image (Width TGA) (Height TGA) TSF_BGRA8 (skipn 18 Buffer), None)
       else
         (false, Image, Some "TGA uses an unsupported bit-depth"%string) |}.

Definition ToyPNG : FPNGHelpers :=
  {| FillZeroAlphaPNGData := fun _ _ _ Pixels => Pixels |}.

(** A file system with the files of a list: name, size, creation time,
    modification time and content ([None]: the read fails). *)
Definition FFile : Type := FString * (Z * Z * Z * option (list byte)).

Fixpoint Find (Files : list FFile) (Name : FString)
  : option (Z * Z * Z * option (list byte)) :=
  match Files with
  | [] => None
  | (n, f) :: Rest => if String.eqb n Name then Some f else Find Rest Name
  end.

Definition Disk (Files : list FFile) : IFileManager :=
  {| FileExists := fun Name =>
       match Find Files Name with Some _ => true | None => false end;
     FileSize := fun Name =>
       match Find Files Name with
       | Some (Size, _, _, _) => Size
       | None => INDEX_NONE
       end;
     GetStatData := fun Name =>
       match Find Files Name with
       | Some (_, Created, Modified, _) =>
           {| CreationTime := Created; StatModificationTime := Modified |}
       | None => {| CreationTime := 0; StatModificationTime := 0 |}
       end;
     LoadFileToArray := fun Name =>
       match Find Files Name with
       | Some (_, _, _, Content) => Content
       | None => None
       end |}.

Definition ToyEngine : FEngine :=
  {| IsInGameThread := true;
     GetBaseFilename := fun Name => Name;
     MakeUniqueObjectName := fun Name => Name;
     BlockBytes := fun f =>
       match f with
       | PF_G8 => 1
       | PF_G16 => 2
       | PF_B8G8R8A8 => 4
       | PF_FloatRGBA | PF_R16G16B16A16_SINT | PF_R16G16B16A16_UINT => 8
       | PF_A32B32G32R32F => 16
       | _ => 0
       end |}.

(** A fresh [FRuntimeImageData], with the defaults of the engine's import
    image: no pixels, no format, gamma-encoded. *)
Definition EmptyImage : FRuntimeImageData :=
  {| RawData := []; Format := TSF_Invalid; CompressionSettings := TC_Default;
     SizeX := 0; SizeY := 0; SRGB := true; ModificationTime := 0 |}.

(** Buffers of the toy container and of TGA. *)
Definition lo (z : Z) : byte :=
  match Byte.of_N (Z.to_N (z mod 256)) with Some b => b | None => x00 end.

Definition ToyFile (Tag W H Depth Layout : Z) (Pixels : list byte) : list byte :=
  [lo Tag; lo W; lo (W / 256); lo H; lo (H / 256); lo Depth; lo Layout] ++ Pixels.

Definition TGAFile (CMT ITC W H BPP : Z) (Pixels : list byte) : list byte :=
  [x00; lo CMT; lo ITC; x00; x00; x00; x00; x00; x00; x00; x00; x00;
   lo W; lo (W / 256); lo H; lo (H / 256); lo BPP; x00] ++ Pixels.

Definition Len (Buffer : list byte) : Z := Z.of_nat (List.length Buffer).

(** Sample inputs. *)
Definition GrayPNG : list byte := ToyFile 137 3 5 8 2 [x01].
Definition Gray16PNG : list byte := ToyFile 137 3 5 16 2 [x01].
Definition HugePNG : list byte := ToyFile 137 16385 16385 8 2 [x01].
Definition FullSizePNG : list byte := ToyFile 137 8192 8192 8 2 [x01].
Definition ColorJPEG : list byte := ToyFile 255 3 5 8 0 [x01].
Definition ColorBMP : list byte := ToyFile 66 3 5 8 1 [x01].
Definition GrayTGA : list byte := TGAFile 0 3 1 1 8 [x07].
Definition OddTGA : list byte := TGAFile 0 4 1 1 8 [x07].

Definition Run (GMaxTextureMipCount : Z) (Buffer : list byte) : FImportResult :=
  FRuntimeImageUtils.ImportBufferAsImage GMaxTextureMipCount IsPowerOfTwo
    ToyWrappers ToyTGA ToyPNG Buffer (Len Buffer) EmptyImage.

(** A disk with the one file "a.tga". *)
Definition OneFile (Size Created Modified : Z) (Content : option (list byte))
  : IFileManager :=
  Disk [("a.tga"%string, (Size, Created, Modified, Content))].

Definition RunFile (Files : IFileManager) (Name : FString) : FFileImportResult :=
  FRuntimeImageUtils.ImportFileAsImage 14 IsPowerOfTwo ToyWrappers ToyTGA ToyPNG
    Files Name EmptyImage.

End Samples.

(** ** Vocabulary of the properties *)

(** What [ImportBufferAsImage] takes a buffer for: the first image wrapper, in
    the order PNG, JPEG, BMP, that accepts the bytes; failing those, a TGA file
    when the header is one of the supported kinds; failing that, nothing. *)
Inductive EContainer :=
| IsPNG (Png : FLoadedImage)
| IsJPEG (Jpeg : FLoadedImage)
| IsBMP (Bmp : FLoadedImage)
| IsTGA (TGA : FTGAFileHeader)
| IsNothing.

Section Vocabulary.

Variable GMaxTextureMipCount : Z.
Variable FMath_IsPowerOfTwo : Z -> bool.
Variable ImageWrapperModule : IImageWrapperModule.
Variable TGAHelpers : FTGAHelpers.
Variable PNGHelpers : FPNGHelpers.

(** Does the wrapper for [f] exist and accept the bytes? *)
Definition Accepts (f : EImageFormat.t) (Buffer : list byte) (Length : Z)
  : option FLoadedImage :=
  match CreateImageWrapper ImageWrapperModule f with
  | Some Wrapper => SetCompressed Wrapper Buffer Length
  | None => None
  end.

Definition Classify (Buffer : list byte) (Length : Z) : EContainer :=
  match Accepts EImageFormat.PNG Buffer Length with
  | Some Png => IsPNG Png
  | None =>
  match Accepts EImageFormat.JPEG Buffer Length with
  | Some Jpeg => IsJPEG Jpeg
  | None =>
  match Accepts EImageFormat.BMP Buffer Length with
  | Some Bmp => IsBMP Bmp
  | None =>
      if FRuntimeImageUtils.IsSupportedTGA TGAHelpers Length
           (AsTGAFileHeader TGAHelpers Buffer)
      then IsTGA (AsTGAFileHeader TGAHelpers Buffer)
      else IsNothing
  end end end.

(** The block of [ImportBufferAsImage] that handles each kind of container. *)
Definition ImportAs (c : EContainer) (Buffer : list byte)
    (Image : FRuntimeImageData) : FImportResult :=
  match c with
  | IsPNG Png =>
      FRuntimeImageUtils.ImportPNG GMaxTextureMipCount FMath_IsPowerOfTwo
        PNGHelpers Png Image
  | IsJPEG Jpeg =>
      FRuntimeImageUtils.ImportJPEG GMaxTextureMipCount FMath_IsPowerOfTwo Jpeg Image
  | IsBMP Bmp =>
      FRuntimeImageUtils.ImportBMP GMaxTextureMipCount FMath_IsPowerOfTwo Bmp Image
  | IsTGA TGA =>
      FRuntimeImageUtils.ImportTGA GMaxTextureMipCount FMath_IsPowerOfTwo
        TGAHelpers TGA Buffer Image
  | IsNothing => fail Image FRuntimeImageUtils.UnsupportedTGAError
  end.

End Vocabulary.

(** The dimensions the container announces. *)
Definition DecodedSize (c : EContainer) : option (Z * Z) :=
  match c with
  | IsPNG w | IsJPEG w | IsBMP w => Some (GetWidth w, GetHeight w)
  | IsTGA TGA => Some (Width TGA, Height TGA)
  | IsNothing => None
  end.

(** The call returned false and left [msg] in [OutError]. *)
Definition RejectedWith (r : FImportResult) (msg : FString) : Prop :=
  Returned r = false /\ OutError r = Some msg.

(** The wrappers that were handed the bytes, in the order of the calls. *)
Fixpoint Probed (cs : list ECall) : list EImageFormat.t :=
  match cs with
  | [] => []
  | CallSetCompressed f :: cs => f :: Probed cs
  | _ :: cs => Probed cs
  end.

(** Was a decoder (an image wrapper or the TGA helper) called at all? *)
Definition IsDecoderCall (c : ECall) : bool :=
  match c with
  | CallCreateImageWrapper _ | CallSetCompressed _ | CallGetRaw _
  | CallDecompressTGA => true
  | _ => false
  end.

Definition IsReadCall (c : ECall) : bool :=
  match c with CallLoadFileToArray _ => true | _ => false end.

(** The wrappers that were created, in the order of the calls. *)
Fixpoint Tried (cs : list ECall) : list EImageFormat.t :=
  match cs with
  | [] => []
  | CallCreateImageWrapper f :: cs => f :: Tried cs
  | _ :: cs => Tried cs
  end.

(** The caller's error string after a call that assigned [w] to it, or did
    not assign it. *)
Definition ErrorAfter (Entry : FString) (w : option FString) : FString :=
  match w with Some s => s | None => Entry end.

(** [ImportFileAsImage] returned early: with the image it was given, the
    text [msg] in [OutError], a non-empty text, and without a call to a
    decoder. *)
Definition ReturnedEarly (r : FFileImportResult) (Image : FRuntimeImageData)
    (msg : FString) (cs : list ECall) : Prop :=
  r = Finished Image (Some msg) cs /\
  IsEmpty msg = false /\
  existsb IsDecoderCall cs = false.

Definition IsProbe (c : ECall) : bool :=
  match c with
  | CallCreateImageWrapper _ | CallSetCompressed _ => true
  | _ => false
  end.


(** The percentages that are a caller error: those outside (0, 100]. *)
Definition IsCallerError (Percent : Z) : Prop := Percent <= 0 \/ 100 < Percent.

(** The range in which a percentage asks for a resize: (0, 100). *)
Definition InResizeRange (Percent : Z) : Prop := 0 < Percent < 100.

(** The error texts each block of [ImportBufferAsImage] can leave. *)
Definition ErrorsOf (c : EContainer) : list FString :=
  match c with
  | IsPNG w =>
      [FRuntimeImageUtils.ResolutionError (GetWidth w) (GetHeight w);
       "16bit PNG file is not supported"%string;
       "PNG file contains data in an unsupported format."%string;
       "Failed to decode PNG."%string]
  | IsJPEG w =>
      [FRuntimeImageUtils.ResolutionError (GetWidth w) (GetHeight w);
       "JPEG file contains data in an unsupported format."%string;
       "Failed to decode JPEG."%string]
  | IsBMP w =>
      [FRuntimeImageUtils.ResolutionError (GetWidth w) (GetHeight w);
       "Failed to decode BMP."%string]
  | IsTGA TGA =>
      [FRuntimeImageUtils.ResolutionError (Width TGA) (Height TGA);
       "Failed to decompress TGA."%string]
  | IsNothing =>
      ["TGA file contains data in an unsupported format."%string]
  end.

(** The call that decodes the pixels of each kind of container, if any. *)
Definition DecodeCallOf (c : EContainer) : list ECall :=
  match c with
  | IsPNG _ => [CallGetRaw EImageFormat.PNG]
  | IsJPEG _ => [CallGetRaw EImageFormat.JPEG]
  | IsBMP _ => [CallGetRaw EImageFormat.BMP]
  | IsTGA _ => [CallDecompressTGA]
  | IsNothing => []
  end.

(** The calls that decode pixels. *)
Definition IsDecodeCall (c : ECall) : bool :=
  match c with
  | CallGetRaw _ | CallDecompressTGA => true
  | _ => false
  end.

(** The calls of a result of [ImportFileAsImage]. *)
Definition FileCalls (r : FFileImportResult) : list ECall :=
  match r with
  | CheckFailed cs => cs
  | Finished _ _ cs => cs
  end.

(** * Properties *)

Import FRuntimeImageUtils.

(** ** Arithmetic and strings *)

Lemma int32_shl_one (n : Z) : 0 <= n <= 30 -> int32_shl 1 n = 2 ^ n.
Proof.
  intros Hn. unfold int32_shl, wrap_int32.
  rewrite (Z.mod_small n 32) by lia.
  rewrite Z.shiftl_1_l.
  assert (0 < 2 ^ n) by (apply Z.pow_pos_nonneg; lia).
  assert (2 ^ n <= 2 ^ 30) by (apply Z.pow_le_mono_r; lia).
  change (2 ^ 31) with 2147483648. change (2 ^ 32) with 4294967296.
  change (2 ^ 30) with 1073741824 in *.
  rewrite Z.mod_small; lia.
Qed.

Lemma to_size_t_nonneg (z : Z) : 0 <= z < 2 ^ 31 -> to_size_t z = z.
Proof.
  intros Hz. unfold to_size_t. apply Z.mod_small.
  change (2 ^ 31) with 2147483648 in Hz.
  change (2 ^ 64) with 18446744073709551616. lia.
Qed.

Lemma IsEmpty_false_iff (s : FString) : IsEmpty s = false <-> s <> EmptyString.
Proof. destruct s; simpl; split; congruence. Qed.

Lemma IsEmpty_append (a b : FString) : IsEmpty a = false -> IsEmpty (a ++ b) = false.
Proof. destruct a; simpl; congruence. Qed.

(** ** The transform parameters *)

(** C5: [IsPercentSizeValid] accepts a configuration exactly when each of
    [PercentSizeX] and [PercentSizeY] lies in the valid range, the range
    (0, 100) in which a percentage asks for a resize.  A percentage outside
    (0, 100], which is a caller error, is never accepted.  A percentage of
    100 is not a caller error: it is outside the valid range because it
    stands for "no resize", and the configuration the struct starts with
    (100, 100) is accordingly not accepted. *)
Theorem C5_percent_size (p : FTransformImageParams.t) :
  (FTransformImageParams.IsPercentSizeValid p = true <->
   InResizeRange (FTransformImageParams.PercentSizeX p) /\
   InResizeRange (FTransformImageParams.PercentSizeY p))
  /\
  (IsCallerError (FTransformImageParams.PercentSizeX p) \/
   IsCallerError (FTransformImageParams.PercentSizeY p) ->
   FTransformImageParams.IsPercentSizeValid p = false)
  /\
  (~ IsCallerError 100 /\ ~ InResizeRange 100)
  /\
  (forall v, IsCallerError v \/ v = 100 <-> ~ InResizeRange v)
  /\
  FTransformImageParams.IsPercentSizeValid FTransformImageParams.Default = false.
Proof.
  unfold FTransformImageParams.IsPercentSizeValid, InResizeRange, IsCallerError.
  destruct p as [ui x y]; simpl.
  rewrite !andb_true_iff, !Z.gtb_ltb, !Z.ltb_lt.
  split; [tauto|]. split.
  - intros Herr.
    destruct (0 <? x) eqn:E1, (x <? 100) eqn:E2, (0 <? y) eqn:E3, (y <? 100) eqn:E4;
      try reflexivity; exfalso;
      apply Z.ltb_lt in E1, E2, E3, E4; lia.
  - split; [lia|]. split; [intros v; lia | reflexivity].
Qed.

(** ** The image import *)

Section Properties.

Variable GMaxTextureMipCount : Z.
Variable FMath_IsPowerOfTwo : Z -> bool.
Variable ImageWrapperModule : IImageWrapperModule.
Variable TGAHelpers : FTGAHelpers.
Variable PNGHelpers : FPNGHelpers.
Variable FileManager : IFileManager.

Local Notation Valid := (IsImportResolutionValid GMaxTextureMipCount FMath_IsPowerOfTwo).
Local Notation Import :=
  (ImportBufferAsImage GMaxTextureMipCount FMath_IsPowerOfTwo
     ImageWrapperModule TGAHelpers PNGHelpers).
Local Notation ImportFile :=
  (ImportFileAsImage GMaxTextureMipCount FMath_IsPowerOfTwo
     ImageWrapperModule TGAHelpers PNGHelpers FileManager).
Local Notation Kind := (Classify ImageWrapperModule TGAHelpers).
Local Notation Handle :=
  (ImportAs GMaxTextureMipCount FMath_IsPowerOfTwo TGAHelpers PNGHelpers).

(** *** The resolution check *)

Lemma MaximumSupportedResolution_pow :
  1 <= GMaxTextureMipCount <= 31 ->
  MaximumSupportedResolution GMaxTextureMipCount = 2 ^ (GMaxTextureMipCount - 1).
Proof. intros HG. unfold MaximumSupportedResolution. apply int32_shl_one. lia. Qed.

Lemma IsImportResolutionValid_unfold (W H : Z) (b : bool) :
  Valid W H b =
  negb ((W >? MaximumSupportedResolution GMaxTextureMipCount)
        || (H >? MaximumSupportedResolution GMaxTextureMipCount))
  && negb (negb b && negb (FMath_IsPowerOfTwo W && FMath_IsPowerOfTwo H))
  && negb ((W >? MAX_TEXTURE_SIZE) || (H >? MAX_TEXTURE_SIZE)).
Proof.
  unfold IsImportResolutionValid.
  destruct (_ || _), (negb b && _), (_ || _); reflexivity.
Qed.

Lemma IsImportResolutionValid_iff (W H : Z) (b : bool) :
  1 <= GMaxTextureMipCount <= 31 ->
  Valid W H b = true <->
  W <= 8192 /\ H <= 8192 /\
  W <= 2 ^ (GMaxTextureMipCount - 1) /\ H <= 2 ^ (GMaxTextureMipCount - 1) /\
  (b = true \/ (FMath_IsPowerOfTwo W = true /\ FMath_IsPowerOfTwo H = true)).
Proof.
  intros HG. rewrite IsImportResolutionValid_unfold.
  rewrite (MaximumSupportedResolution_pow HG). unfold MAX_TEXTURE_SIZE.
  set (M := 2 ^ (GMaxTextureMipCount - 1)).
  rewrite !andb_true_iff, !negb_true_iff, !orb_false_iff, andb_false_iff,
    !negb_false_iff, andb_true_iff.
  rewrite !Z.gtb_ltb, !Z.ltb_ge. tauto.
Qed.

(** Whatever the platform, nothing wider or taller than 8192 passes. *)
Lemma IsImportResolutionValid_cap (W H : Z) (b : bool) :
  8192 < W \/ 8192 < H -> Valid W H b = false.
Proof.
  intros Hbig. rewrite IsImportResolutionValid_unfold. unfold MAX_TEXTURE_SIZE.
  assert ((W >? 8192) || (H >? 8192) = true) as ->.
  { apply orb_true_iff. rewrite !Z.gtb_ltb, !Z.ltb_lt. exact Hbig. }
  apply andb_false_r.
Qed.

(** *** The dispatch on the container *)

Lemma TryWrapper_fst (f : EImageFormat.t) (Buffer : list byte) (Length : Z) :
  fst (TryWrapper ImageWrapperModule f Buffer Length)
  = Accepts ImageWrapperModule f Buffer Length.
Proof.
  unfold TryWrapper, Accepts.
  destruct (CreateImageWrapper ImageWrapperModule f); reflexivity.
Qed.

Lemma TryWrapper_snd (f : EImageFormat.t) (Buffer : list byte) (Length : Z) :
  Forall (fun c => IsProbe c = true)
    (snd (TryWrapper ImageWrapperModule f Buffer Length)).
Proof.
  unfold TryWrapper.
  destruct (CreateImageWrapper ImageWrapperModule f); simpl;
    repeat constructor.
Qed.

(** [ImportBufferAsImage] asks the wrappers, then runs the block of the
    container it found. *)
Lemma ImportBufferAsImage_dispatch (Buffer : list byte) (Length : Z)
    (Image : FRuntimeImageData) :
  exists cs,
    Forall (fun c => IsProbe c = true) cs /\
    Import Buffer Length Image = after cs (Handle (Kind Buffer Length) Buffer Image).
Proof.
  unfold ImportBufferAsImage, Classify.
  pose proof (TryWrapper_fst EImageFormat.PNG Buffer Length) as E1.
  pose proof (TryWrapper_snd EImageFormat.PNG Buffer Length) as F1.
  pose proof (TryWrapper_fst EImageFormat.JPEG Buffer Length) as E2.
  pose proof (TryWrapper_snd EImageFormat.JPEG Buffer Length) as F2.
  pose proof (TryWrapper_fst EImageFormat.BMP Buffer Length) as E3.
  pose proof (TryWrapper_snd EImageFormat.BMP Buffer Length) as F3.
  destruct (TryWrapper _ EImageFormat.PNG _ _) as [[w1|] c1];
    simpl in E1, F1; rewrite <- E1.
  { exists c1. split; [assumption | reflexivity]. }
  destruct (TryWrapper _ EImageFormat.JPEG _ _) as [[w2|] c2];
    simpl in E2, F2; rewrite <- E2.
  { exists (c1 ++ c2). split; [apply Forall_app; auto | reflexivity]. }
  destruct (TryWrapper _ EImageFormat.BMP _ _) as [[w3|] c3];
    simpl in E3, F3; rewrite <- E3.
  { exists (c1 ++ c2 ++ c3). split; [repeat (apply Forall_app; split); auto | reflexivity]. }
  exists (c1 ++ c2 ++ c3).
  split; [repeat (apply Forall_app; split); auto |].
  destruct (IsSupportedTGA _ _ _); reflexivity.
Qed.

Lemma RejectedWith_after (cs : list ECall) (r : FImportResult) (msg : FString) :
  RejectedWith (after cs r) msg <-> RejectedWith r msg.
Proof. unfold RejectedWith. simpl. tauto. Qed.

Lemma RejectedWith_fail (Image : FRuntimeImageData) (msg msg' : FString) :
  RejectedWith (fail Image msg) msg' <-> msg = msg'.
Proof.
  unfold RejectedWith. simpl. split.
  - intros [_ E]. congruence.
  - intros ->. auto.
Qed.

(** The text of the resolution error is none of the other error texts. *)
Lemma ResolutionError_head (W H : Z) :
  exists s, ResolutionError W H = String "T" (String "e" s).
Proof. unfold ResolutionError. simpl. eexists. reflexivity. Qed.

Ltac not_resolution_error W H :=
  let s := fresh "s" in let E := fresh "E" in
  destruct (ResolutionError_head W H) as [s E]; rewrite E;
  unfold RejectedWith; simpl; intros [? ?]; congruence.

(** Each block rejects for the resolution exactly when the check, called
    with [bAllowNonPowerOfTwo = true], fails. *)
Lemma resolution_rejection (c : EContainer) (Buffer : list byte)
    (Image : FRuntimeImageData) (W H : Z) :
  DecodedSize c = Some (W, H) ->
  RejectedWith (Handle c Buffer Image) (ResolutionError W H)
  <-> Valid W H true = false.
Proof.
  intros Hc.
  destruct c as [w|w|w|t|]; simpl in Hc; inversion Hc; subst; clear Hc; simpl.
  - unfold ImportPNG.
    destruct (Valid (GetWidth w) (GetHeight w) true); simpl.
    + split; [|discriminate].
      destruct (SelectPNGFormat _ _) as [[tf f] d].
      destruct (d =? 16); [not_resolution_error (GetWidth w) (GetHeight w)|].
      destruct (is_TSF_Invalid tf); [not_resolution_error (GetWidth w) (GetHeight w)|].
      destruct (GetRaw w f d); not_resolution_error (GetWidth w) (GetHeight w).
    + rewrite RejectedWith_fail. tauto.
  - unfold ImportJPEG.
    destruct (Valid (GetWidth w) (GetHeight w) true); simpl.
    + split; [|discriminate].
      destruct (SelectJPEGFormat _ _) as [[tf f] d].
      destruct (is_TSF_Invalid tf); [not_resolution_error (GetWidth w) (GetHeight w)|].
      destruct (GetRaw w f d); not_resolution_error (GetWidth w) (GetHeight w).
    + rewrite RejectedWith_fail. tauto.
  - unfold ImportBMP.
    destruct (Valid (GetWidth w) (GetHeight w) true); simpl.
    + split; [|discriminate].
      destruct (GetRaw w _ _); not_resolution_error (GetWidth w) (GetHeight w).
    + rewrite RejectedWith_fail. tauto.
  - unfold ImportTGA.
    destruct (Valid (Width t) (Height t) true); simpl.
    + split; [|discriminate].
      destruct (DecompressTGA TGAHelpers t Buffer Image) as [[b i] e].
      destruct b; not_resolution_error (Width t) (Height t).
    + rewrite RejectedWith_fail. tauto.
Qed.

Lemma resolution_failure (c : EContainer) (Buffer : list byte)
    (Image : FRuntimeImageData) (W H : Z) :
  DecodedSize c = Some (W, H) ->
  Valid W H true = false ->
  Handle c Buffer Image = fail Image (ResolutionError W H).
Proof.
  intros Hc Hv.
  destruct c as [w|w|w|t|]; simpl in Hc; inversion Hc; subst; clear Hc; simpl;
    [unfold ImportPNG | unfold ImportJPEG | unfold ImportBMP | unfold ImportTGA];
    rewrite Hv; reflexivity.
Qed.

(** C1 (amended): [IsImportResolutionValid Width Height bAllowNonPowerOfTwo]
    is true if and only if [Width <= 8192], [Height <= 8192], both are at
    most [2 ^ (GMaxTextureMipCount - 1)], and [bAllowNonPowerOfTwo] is true
    or both are powers of two in the sense of [FMath::IsPowerOfTwo]; every
    import path calls it with [bAllowNonPowerOfTwo = true], so that a buffer
    is rejected with the resolution error exactly when its announced
    dimensions exceed one of the two bounds; dimensions 16385 x 16385 are
    rejected with the resolution error and the image is left alone; and
    8192 x 8192 passes the check exactly when [GMaxTextureMipCount] is at
    least 14.  ([GMaxTextureMipCount] is taken between 1 and 31, where the
    [int32] shift is defined.) *)
Theorem C1_resolution_check :
  1 <= GMaxTextureMipCount <= 31 ->
  (forall (W H : Z) (b : bool),
      Valid W H b = true <->
      W <= 8192 /\ H <= 8192 /\
      W <= 2 ^ (GMaxTextureMipCount - 1) /\ H <= 2 ^ (GMaxTextureMipCount - 1) /\
      (b = true \/ (FMath_IsPowerOfTwo W = true /\ FMath_IsPowerOfTwo H = true)))
  /\
  (forall (Buffer : list byte) (Length : Z) (Image : FRuntimeImageData) (W H : Z),
      DecodedSize (Kind Buffer Length) = Some (W, H) ->
      RejectedWith (Import Buffer Length Image) (ResolutionError W H) <->
      ~ (W <= 8192 /\ H <= 8192 /\
         W <= 2 ^ (GMaxTextureMipCount - 1) /\ H <= 2 ^ (GMaxTextureMipCount - 1)))
  /\
  (forall (Buffer : list byte) (Length : Z) (Image : FRuntimeImageData),
      DecodedSize (Kind Buffer Length) = Some (16385, 16385) ->
      RejectedWith (Import Buffer Length Image)
        "Texture resolution is not supported: 16385 x 16385" /\
      OutImage (Import Buffer Length Image) = Image)
  /\
  (Valid 8192 8192 true = true <-> 14 <= GMaxTextureMipCount).
Proof.
  intros HG. split; [| split; [| split]].
  - intros W H b. apply IsImportResolutionValid_iff; assumption.
  - intros Buffer Length Image W H Hsize.
    destruct (ImportBufferAsImage_dispatch Buffer Length Image) as (cs & _ & E).
    rewrite E, RejectedWith_after, (resolution_rejection _ Buffer Image _ _ Hsize).
    pose proof (IsImportResolutionValid_iff W H true HG) as Hiff.
    destruct (Valid W H true).
    + split; [discriminate|]. intros Hbad. exfalso. apply Hbad.
      destruct Hiff as [Hiff _]. specialize (Hiff eq_refl). tauto.
    + split; [|reflexivity]. intros _ Hok.
      destruct Hiff as [_ Hiff].
      assert (false = true) by (apply Hiff; intuition). discriminate.
  - intros Buffer Length Image Hsize.
    destruct (ImportBufferAsImage_dispatch Buffer Length Image) as (cs & _ & E).
    rewrite E.
    rewrite (resolution_failure _ Buffer Image _ _ Hsize) by (apply IsImportResolutionValid_cap; lia).
    split; [split|]; reflexivity.
  - split.
    + intros Hv. apply IsImportResolutionValid_iff in Hv; [|assumption].
      destruct Hv as (_ & _ & Hp & _).
      change 8192 with (2 ^ 13) in Hp.
      apply Z.pow_le_mono_r_iff in Hp; lia.
    + intros H14. apply IsImportResolutionValid_iff; [assumption|].
      assert (2 ^ 13 <= 2 ^ (GMaxTextureMipCount - 1)) as Hp
          by (apply Z.pow_le_mono_r; lia).
      change (2 ^ 13) with 8192 in Hp.
      split; [lia | split; [lia | split; [lia | split; [lia | left; reflexivity]]]].
Qed.

(** *** The TGA header *)

Lemma IsSupportedTGA_iff (Length : Z) (TGA : FTGAFileHeader) :
  0 <= Length < 2 ^ 31 ->
  IsSupportedTGA TGAHelpers Length TGA = true <->
  sizeof_FTGAFileHeader TGAHelpers <= Length /\
  ((ColorMapType TGA = 0 /\
    (ImageTypeCode TGA = 2 \/ ImageTypeCode TGA = 3 \/ ImageTypeCode TGA = 10)) \/
   (ColorMapType TGA = 1 /\ ImageTypeCode TGA = 1 /\ BitsPerPixel TGA = 8)).
Proof.
  intros HL. unfold IsSupportedTGA. rewrite (to_size_t_nonneg Length HL).
  rewrite !andb_true_iff, !orb_true_iff, !andb_true_iff, !Z.eqb_eq, Z.geb_le.
  tauto.
Qed.

Lemma not_accepted_Classify (Buffer : list byte) (Length : Z) :
  Accepts ImageWrapperModule EImageFormat.PNG Buffer Length = None ->
  Accepts ImageWrapperModule EImageFormat.JPEG Buffer Length = None ->
  Accepts ImageWrapperModule EImageFormat.BMP Buffer Length = None ->
  Kind Buffer Length =
  if IsSupportedTGA TGAHelpers Length (AsTGAFileHeader TGAHelpers Buffer)
  then IsTGA (AsTGAFileHeader TGAHelpers Buffer) else IsNothing.
Proof. intros E1 E2 E3. unfold Classify. rewrite E1, E2, E3. reflexivity. Qed.

Lemma probes_are_no_decompression (cs : list ECall) :
  Forall (fun c => IsProbe c = true) cs -> ~ In CallDecompressTGA cs.
Proof.
  intros F Hin. rewrite Forall_forall in F. apply F in Hin. discriminate.
Qed.

(** C2: for a buffer that no image wrapper (PNG, JPEG, BMP) accepts,
    [ImportBufferAsImage] takes it for a TGA file, and runs the TGA block on
    its header, exactly when [Length] is at least the size of the TGA file
    header and the header has colour-map type 0 and image type 2, 3 or 10, or
    colour-map type 1, image type 1 and 8 bits per pixel; for any other
    buffer it returns false with the text "TGA file contains data in an
    unsupported format.", leaves the image alone and never calls
    [DecompressTGA].  ([Length] is a length: a non-negative [int32].) *)
Theorem C2_tga_acceptance (Buffer : list byte) (Length : Z) (Image : FRuntimeImageData) :
  0 <= Length < 2 ^ 31 ->
  Accepts ImageWrapperModule EImageFormat.PNG Buffer Length = None ->
  Accepts ImageWrapperModule EImageFormat.JPEG Buffer Length = None ->
  Accepts ImageWrapperModule EImageFormat.BMP Buffer Length = None ->
  let TGA := AsTGAFileHeader TGAHelpers Buffer in
  let Supported :=
    sizeof_FTGAFileHeader TGAHelpers <= Length /\
    ((ColorMapType TGA = 0 /\
      (ImageTypeCode TGA = 2 \/ ImageTypeCode TGA = 3 \/ ImageTypeCode TGA = 10)) \/
     (ColorMapType TGA = 1 /\ ImageTypeCode TGA = 1 /\ BitsPerPixel TGA = 8)) in
  (Kind Buffer Length = IsTGA TGA <-> Supported) /\
  (Supported ->
   exists cs, Forall (fun c => IsProbe c = true) cs /\
     Import Buffer Length Image =
     after cs (ImportTGA GMaxTextureMipCount FMath_IsPowerOfTwo TGAHelpers
                 TGA Buffer Image)) /\
  (~ Supported ->
   RejectedWith (Import Buffer Length Image)
     "TGA file contains data in an unsupported format." /\
   OutImage (Import Buffer Length Image) = Image /\
   ~ In CallDecompressTGA (Calls (Import Buffer Length Image))).
Proof.
  intros HL E1 E2 E3 TGA Supported.
  pose proof (not_accepted_Classify Buffer Length E1 E2 E3) as HK.
  pose proof (IsSupportedTGA_iff Length TGA HL) as Hiff. fold TGA in HK.
  destruct (ImportBufferAsImage_dispatch Buffer Length Image) as (cs & Fcs & E).
  rewrite HK in E.
  destruct (IsSupportedTGA TGAHelpers Length TGA) eqn:Hs.
  - assert Supported as HS by (apply Hiff; reflexivity).
    split; [split; [intros _; exact HS | intros _; exact HK] |].
    split; [intros _; exists cs; split; assumption |].
    intros Hn. contradiction.
  - assert (~ Supported) as HS
        by (intros HS; apply Hiff in HS; discriminate).
    split; [split; [rewrite HK; discriminate | intros HS'; contradiction] |].
    split; [intros HS'; contradiction |].
    intros _. rewrite E. simpl.
    split; [split; reflexivity |]. split; [reflexivity |].
    rewrite app_nil_r. apply probes_are_no_decompression. assumption.
Qed.

(** *** Format selection *)

Lemma SelectPNGFormat_gray8 (d : Z) :
  d <= 8 -> SelectPNGFormat ERGBFormat.Gray d = (TSF_G8, ERGBFormat.Gray, 8).
Proof.
  intros Hd. unfold SelectPNGFormat.
  destruct (Z.leb_spec d 8); [reflexivity | lia].
Qed.

Lemma SelectJPEGFormat_gray8 (d : Z) :
  d <= 8 -> SelectJPEGFormat ERGBFormat.Gray d = (TSF_G8, ERGBFormat.Gray, 8).
Proof.
  intros Hd. unfold SelectJPEGFormat.
  destruct (Z.leb_spec d 8); [reflexivity | lia].
Qed.

Lemma ImportPNG_gray8 (w : FLoadedImage) (Image : FRuntimeImageData) :
  GetFormat w = ERGBFormat.Gray -> GetBitDepth w <= 8 ->
  Returned (ImportPNG GMaxTextureMipCount FMath_IsPowerOfTwo PNGHelpers w Image) = true ->
  Format (OutImage (ImportPNG GMaxTextureMipCount FMath_IsPowerOfTwo PNGHelpers w Image))
    = TSF_G8 /\
  SRGB (OutImage (ImportPNG GMaxTextureMipCount FMath_IsPowerOfTwo PNGHelpers w Image))
    = true.
Proof.
  intros HF HD. unfold ImportPNG. rewrite HF, (SelectPNGFormat_gray8 _ HD).
  destruct (Valid _ _ true); simpl; [|discriminate].
  destruct (GetRaw w _ _); simpl; [auto | discriminate].
Qed.

Lemma ImportJPEG_gray8 (w : FLoadedImage) (Image : FRuntimeImageData) :
  GetFormat w = ERGBFormat.Gray -> GetBitDepth w <= 8 ->
  Returned (ImportJPEG GMaxTextureMipCount FMath_IsPowerOfTwo w Image) = true ->
  Format (OutImage (ImportJPEG GMaxTextureMipCount FMath_IsPowerOfTwo w Image))
    = TSF_G8 /\
  SRGB (OutImage (ImportJPEG GMaxTextureMipCount FMath_IsPowerOfTwo w Image))
    = true.
Proof.
  intros HF HD. unfold ImportJPEG. rewrite HF, (SelectJPEGFormat_gray8 _ HD).
  destruct (Valid _ _ true); simpl; [|discriminate].
  destruct (GetRaw w _ _); simpl; [auto | discriminate].
Qed.

(** C3 (amended): when [ImportBufferAsImage] succeeds on a PNG or a JPEG
    container whose content is grayscale of at most 8 bits, the image has
    the format [TSF_G8] and [SRGB] set to true; when it succeeds on a TGA
    container of image type 3 (grayscale) that [DecompressTGA] gave the
    grayscale compression setting, [SRGB] is false; when it succeeds on a
    BMP container, the format is [TSF_BGRA8] whatever the content and [SRGB]
    is as it was on entry. *)
Theorem C3_grayscale_import (Buffer : list byte) (Length : Z) (Image : FRuntimeImageData) :
  Returned (Import Buffer Length Image) = true ->
  (forall w,
      Kind Buffer Length = IsPNG w \/ Kind Buffer Length = IsJPEG w ->
      GetFormat w = ERGBFormat.Gray -> GetBitDepth w <= 8 ->
      Format (OutImage (Import Buffer Length Image)) = TSF_G8 /\
      SRGB (OutImage (Import Buffer Length Image)) = true)
  /\
  (forall TGA,
      Kind Buffer Length = IsTGA TGA -> ImageTypeCode TGA = 3 ->
      CompressionSettings (OutImage (Import Buffer Length Image)) = TC_Grayscale ->
      SRGB (OutImage (Import Buffer Length Image)) = false)
  /\
  (forall w,
      Kind Buffer Length = IsBMP w ->
      Format (OutImage (Import Buffer Length Image)) = TSF_BGRA8 /\
      SRGB (OutImage (Import Buffer Length Image)) = SRGB Image).
Proof.
  destruct (ImportBufferAsImage_dispatch Buffer Length Image) as (cs & _ & E).
  rewrite E. simpl. intros Hret. split; [| split].
  - intros w [HK | HK] HF HD; rewrite HK in *; simpl in *.
    + apply ImportPNG_gray8; assumption.
    + apply ImportJPEG_gray8; assumption.
  - intros TGA HK HT. rewrite HK in *. simpl in *. revert Hret.
    unfold ImportTGA. destruct (Valid _ _ true); simpl; [|discriminate].
    destruct (DecompressTGA TGAHelpers TGA Buffer Image) as [[b i] e].
    destruct b; simpl; [|discriminate]. intros _.
    rewrite HT. simpl. rewrite andb_true_r.
    destruct (is_TC_Grayscale (CompressionSettings i)) eqn:Hg; simpl.
    + reflexivity.
    + intros Hc. rewrite Hc in Hg. discriminate.
  - intros w HK. rewrite HK in *. simpl in *. revert Hret.
    unfold ImportBMP. destruct (Valid _ _ true); simpl; [|discriminate].
    destruct (GetRaw w _ _); simpl; [auto | discriminate].
Qed.




Lemma ResolutionError_not_empty (W H : Z) : IsEmpty (ResolutionError W H) = false.
Proof. destruct (ResolutionError_head W H) as [s ->]. reflexivity. Qed.


(** *** Importing a file *)

Lemma NotFoundError_not_empty (n : FString) : IsEmpty (NotFoundError n) = false.
Proof. reflexivity. Qed.

Lemma TooLargeError_not_empty (n : FString) : IsEmpty (TooLargeError n) = false.
Proof. reflexivity. Qed.

Lemma IOError_not_empty (n : FString) : IsEmpty (IOError n) = false.
Proof. reflexivity. Qed.

(** The three texts start differently, so that none is ever another, even
    for different file names. *)
Lemma early_errors_distinct (n1 n2 : FString) :
  NotFoundError n1 <> TooLargeError n2 /\
  NotFoundError n1 <> IOError n2 /\
  TooLargeError n1 <> IOError n2.
Proof.
  unfold NotFoundError, TooLargeError, IOError.
  repeat split; simpl; discriminate.
Qed.

(** C6: [ImportFileAsImage] returns with a non-empty error text that tells
    the case, with the image as it was given (no pixel data is produced) and
    without a call to a decoder, when (a) the file does not exist, (b) its
    size exceeds 999999999 bytes, in which case the file is not read either,
    or (c) reading it fails. *)
Theorem C6_early_returns (ImageFilename : FString) (Image : FRuntimeImageData) :
  (FileExists FileManager ImageFilename = false ->
   ReturnedEarly (ImportFile ImageFilename Image) Image
     (NotFoundError ImageFilename) [CallFileExists ImageFilename])
  /\
  (FileExists FileManager ImageFilename = true ->
   999999999 < FileSize FileManager ImageFilename ->
   ReturnedEarly (ImportFile ImageFilename Image) Image
     (TooLargeError ImageFilename)
     [CallFileExists ImageFilename; CallFileSize ImageFilename] /\
   existsb IsReadCall [CallFileExists ImageFilename; CallFileSize ImageFilename] = false)
  /\
  (FileExists FileManager ImageFilename = true ->
   FileSize FileManager ImageFilename <> INDEX_NONE ->
   FileSize FileManager ImageFilename <= 999999999 ->
   LoadFileToArray FileManager ImageFilename = None ->
   ReturnedEarly (ImportFile ImageFilename Image) Image
     (IOError ImageFilename)
     [CallFileExists ImageFilename; CallFileSize ImageFilename;
      CallLoadFileToArray ImageFilename])
  /\
  (NotFoundError ImageFilename <> TooLargeError ImageFilename /\
   NotFoundError ImageFilename <> IOError ImageFilename /\
   TooLargeError ImageFilename <> IOError ImageFilename).
Proof.
  unfold ReturnedEarly, ImportFileAsImage, MAX_FILESIZE_BYTES, INDEX_NONE.
  split; [| split; [| split]].
  - intros ->. simpl. auto.
  - intros -> Hbig. simpl.
    destruct (Z.eqb_spec (FileSize FileManager ImageFilename) (-1)); [lia|].
    destruct (Z.gtb_spec (FileSize FileManager ImageFilename) 999999999); [|lia].
    auto.
  - intros -> Hne Hsmall ->. simpl.
    destruct (Z.eqb_spec (FileSize FileManager ImageFilename) (-1)); [contradiction|].
    destruct (Z.gtb_spec (FileSize FileManager ImageFilename) 999999999); [lia|].
    auto.
  - apply early_errors_distinct.
Qed.

(** *** The placeholder texture *)

Variable Engine : FEngine.

(** C7 (amended): for every canonical format tag, [CreateDummyTexture]
    creates a placeholder texture of 1 x 1, with one mip of 1 x 1, whatever
    the dimensions of the decoded image, whose pixel format is the match for
    the tag: [TSF_G8] gives [PF_G8], [TSF_G16] gives [PF_G16], [TSF_BGRA8]
    and [TSF_BGRE8] give [PF_B8G8R8A8], [TSF_RGBA16] gives
    [PF_R16G16B16A16_SINT], [TSF_RGBA16F] gives [PF_FloatRGBA], and any
    other tag gives [PF_B8G8R8A8].  (The function is called on the game
    thread: it checks that.) *)
Theorem C7_dummy_texture (ImageFilename : FString) (ImageFormat : ETextureSourceFormat) :
  IsInGameThread Engine = true ->
  exists Texture,
    CreateDummyTexture Engine ImageFilename ImageFormat = Some Texture /\
    PlatformSizeX (PlatformData Texture) = 1 /\
    PlatformSizeY (PlatformData Texture) = 1 /\
    (exists Bulk,
        Mips (PlatformData Texture)
        = [ {| MipSizeX := 1; MipSizeY := 1; BulkData := Bulk |} ]) /\
    (ImageFormat = TSF_G8 -> PixelFormat (PlatformData Texture) = PF_G8) /\
    (ImageFormat = TSF_G16 -> PixelFormat (PlatformData Texture) = PF_G16) /\
    (ImageFormat = TSF_BGRA8 -> PixelFormat (PlatformData Texture) = PF_B8G8R8A8) /\
    (ImageFormat = TSF_BGRE8 -> PixelFormat (PlatformData Texture) = PF_B8G8R8A8) /\
    (ImageFormat = TSF_RGBA16 ->
     PixelFormat (PlatformData Texture) = PF_R16G16B16A16_SINT) /\
    (ImageFormat = TSF_RGBA16F -> PixelFormat (PlatformData Texture) = PF_FloatRGBA) /\
    (ImageFormat <> TSF_G8 -> ImageFormat <> TSF_G16 -> ImageFormat <> TSF_BGRA8 ->
     ImageFormat <> TSF_BGRE8 -> ImageFormat <> TSF_RGBA16 ->
     ImageFormat <> TSF_RGBA16F ->
     PixelFormat (PlatformData Texture) = PF_B8G8R8A8).
Proof.
  intros Hgt. unfold CreateDummyTexture. rewrite Hgt. simpl.
  eexists. split; [reflexivity|]. simpl.
  split; [reflexivity|]. split; [reflexivity|].
  split; [eexists; reflexivity|].
  repeat split; intros; subst; try reflexivity.
  destruct ImageFormat; try reflexivity; congruence.
Qed.

(** *** The timestamp *)

Lemma Handle_ModificationTime (c : EContainer) (Buffer : list byte)
    (Image : FRuntimeImageData) :
  (forall TGA B I,
      ModificationTime (snd (fst (DecompressTGA TGAHelpers TGA B I)))
      = ModificationTime I) ->
  ModificationTime (OutImage (Handle c Buffer Image)) = ModificationTime Image.
Proof.
  intros HT. destruct c as [w|w|w|t|]; simpl.
  - unfold ImportPNG. destruct (Valid _ _ true); simpl; [|reflexivity].
    destruct (SelectPNGFormat _ _) as [[tf f] d].
    destruct (d =? 16); [reflexivity|].
    destruct (is_TSF_Invalid tf); [reflexivity|].
    destruct (GetRaw w f d); reflexivity.
  - unfold ImportJPEG. destruct (Valid _ _ true); simpl; [|reflexivity].
    destruct (SelectJPEGFormat _ _) as [[tf f] d].
    destruct (is_TSF_Invalid tf); [reflexivity|].
    destruct (GetRaw w f d); reflexivity.
  - unfold ImportBMP. destruct (Valid _ _ true); simpl; [|reflexivity].
    destruct (GetRaw w _ _); reflexivity.
  - unfold ImportTGA. destruct (Valid _ _ true); simpl; [|reflexivity].
    specialize (HT t Buffer Image).
    destruct (DecompressTGA TGAHelpers t Buffer Image) as [[b i] e].
    simpl in HT. destruct b; simpl; [|assumption].
    destruct (_ && _); simpl; assumption.
  - reflexivity.
Qed.

(** C8 (amended): for every source file that exists, passes the size cap
    and is read, the image that [ImportFileAsImage] leaves carries the later
    of the file's creation and last-modified timestamps; it is the
    last-modified timestamp when the file was not created after it was last
    modified.  ([DecompressTGA] is taken not to touch the timestamp.) *)
Theorem C8_timestamp (ImageFilename : FString) (Image : FRuntimeImageData)
    (FileBytes : list byte) :
  (forall TGA B I,
      ModificationTime (snd (fst (DecompressTGA TGAHelpers TGA B I)))
      = ModificationTime I) ->
  FileExists FileManager ImageFilename = true ->
  FileSize FileManager ImageFilename <> INDEX_NONE ->
  FileSize FileManager ImageFilename <= 999999999 ->
  LoadFileToArray FileManager ImageFilename = Some FileBytes ->
  exists Image' Error cs,
    ImportFile ImageFilename Image = Finished Image' Error cs /\
    ModificationTime Image'
    = Z.max (CreationTime (GetStatData FileManager ImageFilename))
            (StatModificationTime (GetStatData FileManager ImageFilename)) /\
    (CreationTime (GetStatData FileManager ImageFilename)
     <= StatModificationTime (GetStatData FileManager ImageFilename) ->
     ModificationTime Image'
     = StatModificationTime (GetStatData FileManager ImageFilename)).
Proof.
  intros HT Hex Hne Hsmall Hload.
  unfold ImportFileAsImage, MAX_FILESIZE_BYTES, INDEX_NONE in *.
  rewrite Hex, Hload. simpl.
  destruct (Z.eqb_spec (FileSize FileManager ImageFilename) (-1)); [contradiction|].
  destruct (Z.gtb_spec (FileSize FileManager ImageFilename) 999999999); [lia|].
  do 3 eexists. split; [reflexivity|].
  match goal with
  | |- context [ImportBufferAsImage ?g ?p ?m ?t ?h ?b ?l ?i] =>
      destruct (ImportBufferAsImage_dispatch b l i) as (cs & _ & E); rewrite E
  end.
  simpl. rewrite (Handle_ModificationTime _ _ _ HT). simpl.
  split; [reflexivity | intros Hle; apply Z.max_r; assumption].
Qed.

(** *** Errors and return values *)

Lemma Handle_false_error (c : EContainer) (Buffer : list byte)
    (Image : FRuntimeImageData) :
  Returned (Handle c Buffer Image) = false ->
  exists msg, OutError (Handle c Buffer Image) = Some msg /\ IsEmpty msg = false.
Proof.
  destruct c as [w|w|w|t|]; simpl.
  - unfold ImportPNG. destruct (Valid _ _ true); simpl.
    + destruct (SelectPNGFormat _ _) as [[tf f] d].
      destruct (d =? 16); [intros _; eexists; split; reflexivity|].
      destruct (is_TSF_Invalid tf); [intros _; eexists; split; reflexivity|].
      destruct (GetRaw w f d); simpl; [discriminate|].
      intros _; eexists; split; reflexivity.
    + intros _. eexists. split; [reflexivity | apply ResolutionError_not_empty].
  - unfold ImportJPEG. destruct (Valid _ _ true); simpl.
    + destruct (SelectJPEGFormat _ _) as [[tf f] d].
      destruct (is_TSF_Invalid tf); [intros _; eexists; split; reflexivity|].
      destruct (GetRaw w f d); simpl; [discriminate|].
      intros _; eexists; split; reflexivity.
    + intros _. eexists. split; [reflexivity | apply ResolutionError_not_empty].
  - unfold ImportBMP. destruct (Valid _ _ true); simpl.
    + destruct (GetRaw w _ _); simpl; [discriminate|].
      intros _; eexists; split; reflexivity.
    + intros _. eexists. split; [reflexivity | apply ResolutionError_not_empty].
  - unfold ImportTGA. destruct (Valid _ _ true); simpl.
    + destruct (DecompressTGA TGAHelpers t Buffer Image) as [[b i] e].
      destruct b; simpl; [discriminate|].
      intros _; eexists; split; reflexivity.
    + intros _. eexists. split; [reflexivity | apply ResolutionError_not_empty].
  - intros _. eexists. split; reflexivity.
Qed.

Lemma Handle_true_wrapper (c : EContainer) (Buffer : list byte)
    (Image : FRuntimeImageData) :
  (forall TGA, c <> IsTGA TGA) ->
  Returned (Handle c Buffer Image) = true ->
  OutError (Handle c Buffer Image) = None.
Proof.
  intros Hc. destruct c as [w|w|w|t|]; simpl.
  - unfold ImportPNG. destruct (Valid _ _ true); simpl; [|discriminate].
    destruct (SelectPNGFormat _ _) as [[tf f] d].
    destruct (d =? 16); [discriminate|].
    destruct (is_TSF_Invalid tf); [discriminate|].
    destruct (GetRaw w f d); simpl; [reflexivity | discriminate].
  - unfold ImportJPEG. destruct (Valid _ _ true); simpl; [|discriminate].
    destruct (SelectJPEGFormat _ _) as [[tf f] d].
    destruct (is_TSF_Invalid tf); [discriminate|].
    destruct (GetRaw w f d); simpl; [reflexivity | discriminate].
  - unfold ImportBMP. destruct (Valid _ _ true); simpl; [|discriminate].
    destruct (GetRaw w _ _); simpl; [reflexivity | discriminate].
  - exfalso. apply (Hc t). reflexivity.
  - discriminate.
Qed.

Lemma Handle_true_TGA (t : FTGAFileHeader) (Buffer : list byte)
    (Image : FRuntimeImageData) :
  (forall TGA B I I' msg,
      DecompressTGA TGAHelpers TGA B I = (true, I', Some msg) -> IsEmpty msg = true) ->
  Returned (Handle (IsTGA t) Buffer Image) = true ->
  forall msg, OutError (Handle (IsTGA t) Buffer Image) = Some msg -> IsEmpty msg = true.
Proof.
  intros HT. simpl. unfold ImportTGA.
  destruct (Valid _ _ true); simpl; [|discriminate].
  specialize (HT t Buffer Image).
  destruct (DecompressTGA TGAHelpers t Buffer Image) as [[b i] e].
  destruct b; simpl; [|discriminate].
  intros _ msg ->. apply (HT i msg). reflexivity.
Qed.

(** C9: [ImportBufferAsImage] returns false if and only if it sets the
    output error to a non-empty message; when it returns true on the PNG,
    JPEG or BMP path it does not assign the output error at all, which
    therefore is empty afterwards if it was empty on entry.
    ([DecompressTGA] is taken to assign no non-empty message when it returns
    true.) *)
Theorem C9_error_iff_false (Buffer : list byte) (Length : Z) (Image : FRuntimeImageData) :
  (forall TGA B I I' msg,
      DecompressTGA TGAHelpers TGA B I = (true, I', Some msg) -> IsEmpty msg = true) ->
  (Returned (Import Buffer Length Image) = false <->
   exists msg,
     OutError (Import Buffer Length Image) = Some msg /\ IsEmpty msg = false)
  /\
  (Returned (Import Buffer Length Image) = true ->
   (exists w, Kind Buffer Length = IsPNG w \/ Kind Buffer Length = IsJPEG w \/
              Kind Buffer Length = IsBMP w) ->
   OutError (Import Buffer Length Image) = None /\
   forall Entry,
     ErrorAfter Entry (OutError (Import Buffer Length Image)) = Entry).
Proof.
  intros HT.
  destruct (ImportBufferAsImage_dispatch Buffer Length Image) as (cs & _ & E).
  rewrite E. simpl. split.
  - split; [apply Handle_false_error|].
    intros (msg & Hmsg & Hne).
    destruct (Returned (Handle (Kind Buffer Length) Buffer Image)) eqn:Hret;
      [|reflexivity].
    exfalso.
    destruct (Kind Buffer Length) as [w|w|w|t|] eqn:HK;
      try (rewrite Handle_true_wrapper in Hmsg;
           [discriminate | intros TGA; discriminate | assumption]).
    pose proof (Handle_true_TGA t Buffer Image HT Hret msg Hmsg). congruence.
  - intros Hret (w & HK).
    assert (OutError (Handle (Kind Buffer Length) Buffer Image) = None) as ->.
    { apply Handle_true_wrapper; [|assumption].
      intros TGA HK'. rewrite HK' in HK.
      destruct HK as [HK | [HK | HK]]; discriminate. }
    split; reflexivity.
Qed.

(** *** The order of the containers *)

Lemma TryWrapper_spec (f : EImageFormat.t) (Buffer : list byte) (Length : Z) :
  exists cs,
    TryWrapper ImageWrapperModule f Buffer Length
    = (Accepts ImageWrapperModule f Buffer Length, cs) /\
    Tried cs = [f] /\
    Forall (fun c => IsProbe c = true) cs /\
    (forall w, Accepts ImageWrapperModule f Buffer Length = Some w ->
               cs = [CallCreateImageWrapper f; CallSetCompressed f]).
Proof.
  unfold TryWrapper, Accepts.
  destruct (CreateImageWrapper ImageWrapperModule f) as [Wrapper|].
  - eexists. split; [reflexivity|]. split; [reflexivity|].
    split; [repeat constructor | reflexivity].
  - eexists. split; [reflexivity|]. split; [reflexivity|].
    split; [repeat constructor | discriminate].
Qed.

Lemma Tried_app (a b : list ECall) : Tried (a ++ b) = Tried a ++ Tried b.
Proof.
  induction a as [|c a IH]; simpl; [reflexivity|].
  destruct c; simpl; rewrite IH; reflexivity.
Qed.

Lemma Handle_creates_no_wrapper (c : EContainer) (Buffer : list byte)
    (Image : FRuntimeImageData) :
  Tried (Calls (Handle c Buffer Image)) = [].
Proof.
  destruct c as [w|w|w|t|]; simpl.
  - unfold ImportPNG. destruct (Valid _ _ true); simpl; [|reflexivity].
    destruct (SelectPNGFormat _ _) as [[tf f] d].
    destruct (d =? 16); [reflexivity|].
    destruct (is_TSF_Invalid tf); [reflexivity|].
    destruct (GetRaw w f d); reflexivity.
  - unfold ImportJPEG. destruct (Valid _ _ true); simpl; [|reflexivity].
    destruct (SelectJPEGFormat _ _) as [[tf f] d].
    destruct (is_TSF_Invalid tf); [reflexivity|].
    destruct (GetRaw w f d); reflexivity.
  - unfold ImportBMP. destruct (Valid _ _ true); simpl; [|reflexivity].
    destruct (GetRaw w _ _); reflexivity.
  - unfold ImportTGA. destruct (Valid _ _ true); simpl; [|reflexivity].
    destruct (DecompressTGA TGAHelpers t Buffer Image) as [[b i] e].
    destruct b; reflexivity.
  - reflexivity.
Qed.

(** The wrappers are created in the order PNG, JPEG, BMP, each one only if
    the ones before it did not accept the bytes. *)
Lemma ImportBufferAsImage_cases (Buffer : list byte) (Length : Z)
    (Image : FRuntimeImageData) :
  exists cs,
    Forall (fun c => IsProbe c = true) cs /\
    Import Buffer Length Image = after cs (Handle (Kind Buffer Length) Buffer Image) /\
    Tried cs =
    match Kind Buffer Length with
    | IsPNG _ => [EImageFormat.PNG]
    | IsJPEG _ => [EImageFormat.PNG; EImageFormat.JPEG]
    | _ => [EImageFormat.PNG; EImageFormat.JPEG; EImageFormat.BMP]
    end /\
    (forall w, Kind Buffer Length = IsPNG w ->
               cs = [CallCreateImageWrapper EImageFormat.PNG;
                     CallSetCompressed EImageFormat.PNG]).
Proof.
  unfold ImportBufferAsImage, Classify.
  destruct (TryWrapper_spec EImageFormat.PNG Buffer Length) as (c1 & -> & T1 & F1 & S1).
  destruct (TryWrapper_spec EImageFormat.JPEG Buffer Length) as (c2 & -> & T2 & F2 & _).
  destruct (TryWrapper_spec EImageFormat.BMP Buffer Length) as (c3 & -> & T3 & F3 & _).
  destruct (Accepts _ EImageFormat.PNG _ _) as [w1|].
  { exists c1. repeat split; auto. intros w _. apply (S1 w1). reflexivity. }
  destruct (Accepts _ EImageFormat.JPEG _ _) as [w2|].
  { exists (c1 ++ c2). rewrite Tried_app, T1, T2.
    repeat split; auto; [apply Forall_app; auto | discriminate]. }
  destruct (Accepts _ EImageFormat.BMP _ _) as [w3|].
  { exists (c1 ++ c2 ++ c3). rewrite !Tried_app, T1, T2, T3.
    repeat split; auto; [repeat (apply Forall_app; split); auto | discriminate]. }
  exists (c1 ++ c2 ++ c3). rewrite !Tried_app, T1, T2, T3.
  destruct (IsSupportedTGA _ _ _);
    (repeat split; auto; [repeat (apply Forall_app; split); auto | discriminate]).
Qed.

(** C10: [ImportBufferAsImage] tries the containers in the fixed order PNG,
    JPEG, BMP, TGA: the wrappers it creates are, in this order, those of a
    beginning of the list PNG, JPEG, BMP; the first wrapper that accepts the
    bytes decides which block runs, and no later wrapper is created; the TGA
    header is looked at only when the three wrappers refused; and a buffer
    that is none of the four is rejected with the text "TGA file contains
    data in an unsupported format.", the image being left alone. *)
Theorem C10_container_order (Buffer : list byte) (Length : Z) (Image : FRuntimeImageData) :
  (exists rest,
      Tried (Calls (Import Buffer Length Image)) ++ rest
      = [EImageFormat.PNG; EImageFormat.JPEG; EImageFormat.BMP])
  /\
  (forall w,
      Accepts ImageWrapperModule EImageFormat.PNG Buffer Length = Some w ->
      Import Buffer Length Image
      = after [CallCreateImageWrapper EImageFormat.PNG;
               CallSetCompressed EImageFormat.PNG]
          (ImportPNG GMaxTextureMipCount FMath_IsPowerOfTwo PNGHelpers w Image))
  /\
  (forall w,
      Accepts ImageWrapperModule EImageFormat.PNG Buffer Length = None ->
      Accepts ImageWrapperModule EImageFormat.JPEG Buffer Length = Some w ->
      exists cs,
        Tried cs = [EImageFormat.PNG; EImageFormat.JPEG] /\
        Forall (fun c => IsProbe c = true) cs /\
        Import Buffer Length Image
        = after cs (ImportJPEG GMaxTextureMipCount FMath_IsPowerOfTwo w Image))
  /\
  (forall w,
      Accepts ImageWrapperModule EImageFormat.PNG Buffer Length = None ->
      Accepts ImageWrapperModule EImageFormat.JPEG Buffer Length = None ->
      Accepts ImageWrapperModule EImageFormat.BMP Buffer Length = Some w ->
      exists cs,
        Tried cs = [EImageFormat.PNG; EImageFormat.JPEG; EImageFormat.BMP] /\
        Forall (fun c => IsProbe c = true) cs /\
        Import Buffer Length Image
        = after cs (ImportBMP GMaxTextureMipCount FMath_IsPowerOfTwo w Image))
  /\
  (Accepts ImageWrapperModule EImageFormat.PNG Buffer Length = None ->
   Accepts ImageWrapperModule EImageFormat.JPEG Buffer Length = None ->
   Accepts ImageWrapperModule EImageFormat.BMP Buffer Length = None ->
   exists cs,
     Tried cs = [EImageFormat.PNG; EImageFormat.JPEG; EImageFormat.BMP] /\
     Forall (fun c => IsProbe c = true) cs /\
     Import Buffer Length Image
     = after cs
         (if IsSupportedTGA TGAHelpers Length (AsTGAFileHeader TGAHelpers Buffer)
          then ImportTGA GMaxTextureMipCount FMath_IsPowerOfTwo TGAHelpers
                 (AsTGAFileHeader TGAHelpers Buffer) Buffer Image
          else fail Image "TGA file contains data in an unsupported format."))
  /\
  (Kind Buffer Length = IsNothing ->
   RejectedWith (Import Buffer Length Image)
     "TGA file contains data in an unsupported format." /\
   OutImage (Import Buffer Length Image) = Image).
Proof.
  destruct (ImportBufferAsImage_cases Buffer Length Image) as (cs & Fcs & E & T & S).
  rewrite E. simpl. rewrite Tried_app, Handle_creates_no_wrapper, app_nil_r, T.
  unfold Classify in *.
  split; [| split; [| split; [| split; [| split]]]].
  - destruct (Accepts _ EImageFormat.PNG _ _); [eexists; reflexivity|].
    destruct (Accepts _ EImageFormat.JPEG _ _); [eexists; reflexivity|].
    exists []. destruct (Accepts _ EImageFormat.BMP _ _); [reflexivity|].
    destruct (IsSupportedTGA _ _ _); reflexivity.
  - intros w Hw. rewrite Hw in *. rewrite (S w eq_refl). reflexivity.
  - intros w H1 H2. rewrite H1, H2 in *. exists cs. auto.
  - intros w H1 H2 H3. rewrite H1, H2, H3 in *. exists cs. auto.
  - intros H1 H2 H3. rewrite H1, H2, H3 in *. exists cs.
    destruct (IsSupportedTGA _ _ _); auto.
  - intros HK. rewrite HK. simpl. split; [split|]; reflexivity.
Qed.

End Properties.

(** * The properties on concrete engines *)

Import Samples.

Lemma ToyTGA_keeps_the_timestamp (TGA : FTGAFileHeader) (B : list byte)
    (I : FRuntimeImageData) :
  ModificationTime (snd (fst (DecompressTGA ToyTGA TGA B I))) = ModificationTime I.
Proof.
  simpl. destruct (BitsPerPixel TGA =? 8); [reflexivity|].
  destruct (_ || _); reflexivity.
Defined.

Lemma ToyTGA_is_silent_on_success (TGA : FTGAFileHeader) (B : list byte)
    (I I' : FRuntimeImageData) (msg : FString) :
  DecompressTGA ToyTGA TGA B I = (true, I', Some msg) -> IsEmpty msg = true.
Proof.
  simpl. destruct (BitsPerPixel TGA =? 8); [discriminate|].
  destruct (_ || _); discriminate.
Defined.

(** C1, on a platform with 14 mip levels: a 16385 x 16385 PNG is rejected with
    the resolution error, and 8192 x 8192 passes the check. *)
Lemma C1_resolution_check_witness :
  1 <= 14 <= 31 /\
  DecodedSize (Classify ToyWrappers ToyTGA HugePNG (Len HugePNG)) = Some (16385, 16385) /\
  RejectedWith (Run 14 HugePNG) "Texture resolution is not supported: 16385 x 16385" /\
  OutImage (Run 14 HugePNG) = EmptyImage /\
  (IsImportResolutionValid 14 IsPowerOfTwo 8192 8192 true = true <-> 14 <= 14).
Proof.
  assert (1 <= 14 <= 31) as HG by lia.
  assert (DecodedSize (Classify ToyWrappers ToyTGA HugePNG (Len HugePNG))
          = Some (16385, 16385)) as HS by reflexivity.
  destruct (C1_resolution_check 14 IsPowerOfTwo ToyWrappers ToyTGA ToyPNG HG)
    as (_ & _ & H3 & H4).
  destruct (H3 HugePNG (Len HugePNG) EmptyImage HS) as [Hr Hi].
  exact (conj HG (conj HS (conj Hr (conj Hi H4)))).
Defined.

(** C1 as stated fails on a platform with 13 mip levels, whose maximum
    resolution is 4096: 8192 x 8192 does not pass the check there, and a PNG
    of that size is rejected with the resolution error. *)
Lemma C1_counterexample :
  MaximumSupportedResolution 13 = 4096 /\
  IsImportResolutionValid 13 IsPowerOfTwo 8192 8192 true = false /\
  DecodedSize (Classify ToyWrappers ToyTGA FullSizePNG (Len FullSizePNG))
  = Some (8192, 8192) /\
  RejectedWith (Run 13 FullSizePNG) "Texture resolution is not supported: 8192 x 8192".
Proof. repeat split; reflexivity. Qed.

(** C2 on a grayscale TGA file of 19 bytes. *)
Lemma C2_tga_acceptance_witness :
  0 <= Len GrayTGA < 2 ^ 31 /\
  Accepts ToyWrappers EImageFormat.PNG GrayTGA (Len GrayTGA) = None /\
  Accepts ToyWrappers EImageFormat.JPEG GrayTGA (Len GrayTGA) = None /\
  Accepts ToyWrappers EImageFormat.BMP GrayTGA (Len GrayTGA) = None /\
  (Classify ToyWrappers ToyTGA GrayTGA (Len GrayTGA)
   = IsTGA (AsTGAFileHeader ToyTGA GrayTGA)
   <->
   18 <= 19 /\
   ((0 = 0 /\ (3 = 2 \/ 3 = 3 \/ 3 = 10)) \/ (0 = 1 /\ 3 = 1 /\ 8 = 8))).
Proof.
  assert (0 <= Len GrayTGA < 2 ^ 31) as HL by (vm_compute; split; congruence).
  refine (conj HL (conj eq_refl (conj eq_refl (conj eq_refl _)))).
  exact (proj1 (C2_tga_acceptance 14 IsPowerOfTwo ToyWrappers ToyTGA ToyPNG
                  GrayTGA (Len GrayTGA) EmptyImage HL eq_refl eq_refl eq_refl)).
Defined.

(** C3 on a grayscale PNG, a grayscale TGA and a BMP. *)
Lemma C3_grayscale_import_witness :
  Returned (Run 14 GrayPNG) = true /\
  (Format (OutImage (Run 14 GrayPNG)) = TSF_G8 /\
   SRGB (OutImage (Run 14 GrayPNG)) = true) /\
  Returned (Run 14 GrayTGA) = true /\
  SRGB (OutImage (Run 14 GrayTGA)) = false /\
  Returned (Run 14 ColorBMP) = true /\
  (Format (OutImage (Run 14 ColorBMP)) = TSF_BGRA8 /\
   SRGB (OutImage (Run 14 ColorBMP)) = SRGB EmptyImage).
Proof.
  pose proof (C3_grayscale_import 14 IsPowerOfTwo ToyWrappers ToyTGA ToyPNG
                GrayPNG (Len GrayPNG) EmptyImage eq_refl) as (P & _ & _).
  pose proof (C3_grayscale_import 14 IsPowerOfTwo ToyWrappers ToyTGA ToyPNG
                GrayTGA (Len GrayTGA) EmptyImage eq_refl) as (_ & T & _).
  pose proof (C3_grayscale_import 14 IsPowerOfTwo ToyWrappers ToyTGA ToyPNG
                ColorBMP (Len ColorBMP) EmptyImage eq_refl) as (_ & _ & B).
  refine (conj eq_refl (conj _ (conj eq_refl (conj _ (conj eq_refl _))))).
  - apply (P (ToyLoaded GrayPNG)); [left; reflexivity | reflexivity |].
    vm_compute. congruence.
  - apply (T (AsTGAFileHeader ToyTGA GrayTGA)); reflexivity.
  - apply (B (ToyLoaded ColorBMP)). reflexivity.
Defined.

(** C3 as stated fails on a grayscale TGA file (image type 3, 8 bits per
    pixel): the import succeeds with the format [TSF_G8], and [SRGB] is
    false. *)
Lemma C3_counterexample :
  Classify ToyWrappers ToyTGA GrayTGA (Len GrayTGA)
  = IsTGA (AsTGAFileHeader ToyTGA GrayTGA) /\
  ImageTypeCode (AsTGAFileHeader ToyTGA GrayTGA) = 3 /\
  BitsPerPixel (AsTGAFileHeader ToyTGA GrayTGA) = 8 /\
  Returned (Run 14 GrayTGA) = true /\
  Format (OutImage (Run 14 GrayTGA)) = TSF_G8 /\
  SRGB (OutImage (Run 14 GrayTGA)) = false.
Proof. repeat split; reflexivity. Qed.



(** C5 on three configurations: one that asks for a resize, one with a
    percentage of 100 and one with a caller error. *)
Lemma C5_percent_size_witness :
  FTransformImageParams.IsPercentSizeValid
    {| FTransformImageParams.bForUI := true;
       FTransformImageParams.PercentSizeX := 50;
       FTransformImageParams.PercentSizeY := 25 |} = true /\
  (IsCallerError 0 \/ IsCallerError 50) /\
  FTransformImageParams.IsPercentSizeValid
    {| FTransformImageParams.bForUI := true;
       FTransformImageParams.PercentSizeX := 0;
       FTransformImageParams.PercentSizeY := 50 |} = false /\
  ~ IsCallerError 100 /\
  FTransformImageParams.IsPercentSizeValid FTransformImageParams.Default = false.
Proof.
  assert (IsCallerError 0 \/ IsCallerError 50) as He by (left; left; lia).
  refine (conj _ (conj He (conj _ (conj _ _)))).
  - apply (proj1 (C5_percent_size
                    {| FTransformImageParams.bForUI := true;
                       FTransformImageParams.PercentSizeX := 50;
                       FTransformImageParams.PercentSizeY := 25 |})).
    simpl. unfold InResizeRange. lia.
  - exact (proj1 (proj2 (C5_percent_size
                    {| FTransformImageParams.bForUI := true;
                       FTransformImageParams.PercentSizeX := 0;
                       FTransformImageParams.PercentSizeY := 50 |})) He).
  - exact (proj1 (proj1 (proj2 (proj2 (C5_percent_size FTransformImageParams.Default))))).
  - exact (proj2 (proj2 (proj2 (proj2 (C5_percent_size FTransformImageParams.Default))))).
Defined.

(** C6 on a disk without the file, on one where the file is too large and on
    one where the read fails. *)
Lemma C6_early_returns_witness :
  (FileExists (Disk []) "a.tga" = false /\
   ReturnedEarly (RunFile (Disk []) "a.tga") EmptyImage
     "Image does not exist: a.tga" [CallFileExists "a.tga"]) /\
  ((FileExists (OneFile 1000000000 5 5 (Some GrayTGA)) "a.tga" = true /\
    999999999 < FileSize (OneFile 1000000000 5 5 (Some GrayTGA)) "a.tga") /\
   ReturnedEarly (RunFile (OneFile 1000000000 5 5 (Some GrayTGA)) "a.tga") EmptyImage
     "Image filesize > 999999999 MBs): a.tga"
     [CallFileExists "a.tga"; CallFileSize "a.tga"]) /\
  ((FileExists (OneFile 19 5 5 None) "a.tga" = true /\
    FileSize (OneFile 19 5 5 None) "a.tga" <> INDEX_NONE /\
    FileSize (OneFile 19 5 5 None) "a.tga" <= 999999999 /\
    LoadFileToArray (OneFile 19 5 5 None) "a.tga" = None) /\
   ReturnedEarly (RunFile (OneFile 19 5 5 None) "a.tga") EmptyImage
     "Image I/O error: a.tga"
     [CallFileExists "a.tga"; CallFileSize "a.tga"; CallLoadFileToArray "a.tga"]).
Proof.
  assert (999999999 < FileSize (OneFile 1000000000 5 5 (Some GrayTGA)) "a.tga")
    as Hbig by reflexivity.
  assert (FileSize (OneFile 19 5 5 None) "a.tga" <> INDEX_NONE)
    as Hne by (vm_compute; congruence).
  assert (FileSize (OneFile 19 5 5 None) "a.tga" <= 999999999)
    as Hsmall by (vm_compute; congruence).
  refine (conj (conj eq_refl _) (conj (conj (conj eq_refl Hbig) _)
          (conj (conj eq_refl (conj Hne (conj Hsmall eq_refl))) _))).
  - exact (proj1 (C6_early_returns 14 IsPowerOfTwo ToyWrappers ToyTGA ToyPNG
                    (Disk []) "a.tga" EmptyImage) eq_refl).
  - exact (proj1 (proj1 (proj2 (C6_early_returns 14 IsPowerOfTwo ToyWrappers ToyTGA ToyPNG
                    (OneFile 1000000000 5 5 (Some GrayTGA)) "a.tga" EmptyImage))
                    eq_refl Hbig)).
  - exact (proj1 (proj2 (proj2 (C6_early_returns 14 IsPowerOfTwo ToyWrappers ToyTGA ToyPNG
                    (OneFile 19 5 5 None) "a.tga" EmptyImage)))
                    eq_refl Hne Hsmall eq_refl).
Defined.

(** C7 on the tag [TSF_RGBA16]. *)
Lemma C7_dummy_texture_witness :
  IsInGameThread ToyEngine = true /\
  exists Texture,
    CreateDummyTexture ToyEngine "a.tga" TSF_RGBA16 = Some Texture /\
    PlatformSizeX (PlatformData Texture) = 1 /\
    PlatformSizeY (PlatformData Texture) = 1 /\
    PixelFormat (PlatformData Texture) = PF_R16G16B16A16_SINT.
Proof.
  split; [reflexivity|].
  destruct (C7_dummy_texture ToyEngine "a.tga" TSF_RGBA16 eq_refl)
    as (Texture & Hc & Hx & Hy & _ & _ & _ & _ & _ & Hf & _).
  exists Texture. exact (conj Hc (conj Hx (conj Hy (Hf eq_refl)))).
Defined.

(** C7 as stated fails on the image decoded from a PNG of 3 x 5: the texture
    created for it is 1 x 1. *)
Lemma C7_counterexample :
  Returned (Run 14 GrayPNG) = true /\
  (SizeX (OutImage (Run 14 GrayPNG)), SizeY (OutImage (Run 14 GrayPNG))) = (3, 5) /\
  exists Texture,
    CreateDummyTexture ToyEngine "a.png" (Format (OutImage (Run 14 GrayPNG)))
    = Some Texture /\
    (PlatformSizeX (PlatformData Texture), PlatformSizeY (PlatformData Texture)) = (1, 1) /\
    PlatformSizeX (PlatformData Texture) <> SizeX (OutImage (Run 14 GrayPNG)) /\
    PlatformSizeY (PlatformData Texture) <> SizeY (OutImage (Run 14 GrayPNG)).
Proof.
  split; [reflexivity|]. split; [reflexivity|].
  eexists. split; [reflexivity|]. split; [reflexivity|].
  split; vm_compute; congruence.
Qed.

(** C8 on a file created at 3 and last modified at 5. *)
Lemma C8_timestamp_witness :
  (forall TGA B I,
      ModificationTime (snd (fst (DecompressTGA ToyTGA TGA B I))) = ModificationTime I) /\
  (FileExists (OneFile 19 3 5 (Some GrayTGA)) "a.tga" = true /\
   FileSize (OneFile 19 3 5 (Some GrayTGA)) "a.tga" <> INDEX_NONE /\
   FileSize (OneFile 19 3 5 (Some GrayTGA)) "a.tga" <= 999999999 /\
   LoadFileToArray (OneFile 19 3 5 (Some GrayTGA)) "a.tga" = Some GrayTGA) /\
  exists Image' Error cs,
    RunFile (OneFile 19 3 5 (Some GrayTGA)) "a.tga" = Finished Image' Error cs /\
    ModificationTime Image' = 5.
Proof.
  assert (FileSize (OneFile 19 3 5 (Some GrayTGA)) "a.tga" <> INDEX_NONE)
    as Hne by (vm_compute; congruence).
  assert (FileSize (OneFile 19 3 5 (Some GrayTGA)) "a.tga" <= 999999999)
    as Hsmall by (vm_compute; congruence).
  refine (conj ToyTGA_keeps_the_timestamp
            (conj (conj eq_refl (conj Hne (conj Hsmall eq_refl))) _)).
  destruct (C8_timestamp 14 IsPowerOfTwo ToyWrappers ToyTGA ToyPNG
              (OneFile 19 3 5 (Some GrayTGA)) "a.tga" EmptyImage GrayTGA
              ToyTGA_keeps_the_timestamp eq_refl Hne Hsmall eq_refl)
    as (Image' & Error & cs & Hr & Hmax & _).
  exists Image', Error, cs. exact (conj Hr Hmax).
Defined.

(** C8 as stated fails on a file created at 10 and last modified at 5 (a
    copy, say, of an older file): the import succeeds and the image carries
    10, the creation time. *)
Lemma C8_counterexample :
  FileExists (OneFile 19 10 5 (Some GrayTGA)) "a.tga" = true /\
  FileSize (OneFile 19 10 5 (Some GrayTGA)) "a.tga" = 19 /\
  StatModificationTime (GetStatData (OneFile 19 10 5 (Some GrayTGA)) "a.tga") = 5 /\
  exists Image' cs,
    RunFile (OneFile 19 10 5 (Some GrayTGA)) "a.tga" = Finished Image' None cs /\
    Format Image' = TSF_G8 /\
    ModificationTime Image' = 10 /\
    ModificationTime Image'
    <> StatModificationTime (GetStatData (OneFile 19 10 5 (Some GrayTGA)) "a.tga").
Proof.
  repeat (split; [reflexivity|]).
  do 2 eexists. split; [reflexivity|].
  split; [reflexivity|]. split; [reflexivity|].
  vm_compute. congruence.
Qed.

(** C9 on a PNG that decodes, on a 16-bit PNG and on a TGA that decodes. *)
Lemma C9_error_iff_false_witness :
  (forall TGA B I I' msg,
      DecompressTGA ToyTGA TGA B I = (true, I', Some msg) -> IsEmpty msg = true) /\
  (Returned (Run 14 Gray16PNG) = false /\
   exists msg, OutError (Run 14 Gray16PNG) = Some msg /\ IsEmpty msg = false) /\
  (Returned (Run 14 GrayPNG) = true /\
   OutError (Run 14 GrayPNG) = None /\
   ErrorAfter "" (OutError (Run 14 GrayPNG)) = ""%string).
Proof.
  destruct (C9_error_iff_false 14 IsPowerOfTwo ToyWrappers ToyTGA ToyPNG
              Gray16PNG (Len Gray16PNG) EmptyImage ToyTGA_is_silent_on_success)
    as ([F _] & _).
  destruct (C9_error_iff_false 14 IsPowerOfTwo ToyWrappers ToyTGA ToyPNG
              GrayPNG (Len GrayPNG) EmptyImage ToyTGA_is_silent_on_success)
    as (_ & T).
  destruct (T eq_refl (ex_intro _ (ToyLoaded GrayPNG) (or_introl eq_refl))) as [Tn Te].
  exact (conj ToyTGA_is_silent_on_success
           (conj (conj eq_refl (F eq_refl)) (conj eq_refl (conj Tn (Te ""%string))))).
Defined.

(** C10 on a JPEG, which the PNG wrapper refuses, and on a buffer that is
    none of the four containers. *)
Lemma C10_container_order_witness :
  (Accepts ToyWrappers EImageFormat.PNG ColorJPEG (Len ColorJPEG) = None /\
   Accepts ToyWrappers EImageFormat.JPEG ColorJPEG (Len ColorJPEG)
   = Some (ToyLoaded ColorJPEG)) /\
  (exists cs,
      Tried cs = [EImageFormat.PNG; EImageFormat.JPEG] /\
      Forall (fun c => IsProbe c = true) cs /\
      Run 14 ColorJPEG
      = after cs (ImportJPEG 14 IsPowerOfTwo (ToyLoaded ColorJPEG) EmptyImage)) /\
  Classify ToyWrappers ToyTGA OddTGA (Len OddTGA) = IsNothing /\
  RejectedWith (Run 14 OddTGA) "TGA file contains data in an unsupported format." /\
  OutImage (Run 14 OddTGA) = EmptyImage.
Proof.
  destruct (C10_container_order 14 IsPowerOfTwo ToyWrappers ToyTGA ToyPNG
              ColorJPEG (Len ColorJPEG) EmptyImage) as (_ & _ & J & _).
  destruct (C10_container_order 14 IsPowerOfTwo ToyWrappers ToyTGA ToyPNG
              OddTGA (Len OddTGA) EmptyImage) as (_ & _ & _ & _ & _ & N).
  destruct (N eq_refl) as [Nr Ni].
  exact (conj (conj eq_refl eq_refl)
           (conj (J (ToyLoaded ColorJPEG) eq_refl eq_refl)
              (conj eq_refl (conj Nr Ni)))).
Defined.

(** * Further properties of the import *)

Lemma to_size_t_negative (z : Z) : - 2 ^ 31 <= z < 0 -> to_size_t z = z + 2 ^ 64.
Proof.
  intros Hz. unfold to_size_t.
  change (2 ^ 31) with 2147483648 in Hz.
  change (2 ^ 64) with 18446744073709551616.
  symmetry. apply (Z.mod_unique_pos _ _ (-1)); lia.
Qed.

Lemma negative_int32_is_large (z s : Z) :
  - 2 ^ 31 <= z < 0 -> s <= 2 ^ 63 -> s <= z + 2 ^ 64.
Proof.
  change (2 ^ 63) with 9223372036854775808.
  change (2 ^ 64) with 18446744073709551616.
  change (2 ^ 31) with 2147483648. lia.
Qed.

Lemma length_with_terminator (Bytes : list byte) :
  Z.of_nat (List.length (Bytes ++ [x00])) - 1 = Z.of_nat (List.length Bytes).
Proof. rewrite length_app. simpl. lia. Qed.

Section FurtherProperties.

Variable GMaxTextureMipCount : Z.
Variable FMath_IsPowerOfTwo : Z -> bool.
Variable ImageWrapperModule : IImageWrapperModule.
Variable TGAHelpers : FTGAHelpers.
Variable PNGHelpers : FPNGHelpers.
Variable FileManager : IFileManager.

Local Notation Valid := (IsImportResolutionValid GMaxTextureMipCount FMath_IsPowerOfTwo).
Local Notation MaxRes := (MaximumSupportedResolution GMaxTextureMipCount).
Local Notation Import :=
  (ImportBufferAsImage GMaxTextureMipCount FMath_IsPowerOfTwo
     ImageWrapperModule TGAHelpers PNGHelpers).
Local Notation ImportFile :=
  (ImportFileAsImage GMaxTextureMipCount FMath_IsPowerOfTwo
     ImageWrapperModule TGAHelpers PNGHelpers FileManager).
Local Notation Kind := (Classify ImageWrapperModule TGAHelpers).
Local Notation Handle :=
  (ImportAs GMaxTextureMipCount FMath_IsPowerOfTwo TGAHelpers PNGHelpers).

(** ** The resolution check *)

(** With non-power-of-two sizes allowed, the check is two upper bounds. *)
Lemma IsImportResolutionValid_true_iff (W H : Z) :
  Valid W H true = true <->
  W <= MaxRes /\ H <= MaxRes /\ W <= 8192 /\ H <= 8192.
Proof.
  rewrite IsImportResolutionValid_unfold. unfold MAX_TEXTURE_SIZE. simpl.
  rewrite andb_true_r, andb_true_iff, !negb_true_iff, !orb_false_iff.
  rewrite !Z.gtb_ltb, !Z.ltb_ge. tauto.
Qed.

Lemma IsImportResolutionValid_false_iff (W H : Z) :
  Valid W H true = false <->
  MaxRes < W \/ MaxRes < H \/ 8192 < W \/ 8192 < H.
Proof.
  pose proof (IsImportResolutionValid_true_iff W H) as Hiff.
  destruct (Valid W H true).
  - split; [discriminate|]. intros Hbig. exfalso.
    destruct Hiff as [Hiff _]. specialize (Hiff eq_refl).
    destruct Hiff as (A & B & C & D).
    destruct Hbig as [F | [F | [F | F]]].
    + apply (Z.lt_irrefl W). apply (Z.le_lt_trans _ _ _ A F).
    + apply (Z.lt_irrefl H). apply (Z.le_lt_trans _ _ _ B F).
    + apply (Z.lt_irrefl W). apply (Z.le_lt_trans _ _ _ C F).
    + apply (Z.lt_irrefl H). apply (Z.le_lt_trans _ _ _ D F).
  - split; [|reflexivity]. intros _.
    destruct (Z.le_gt_cases W MaxRes) as [A|A]; [|left; exact A].
    destruct (Z.le_gt_cases H MaxRes) as [B|B]; [|right; left; exact B].
    destruct (Z.le_gt_cases W 8192) as [C|C]; [|right; right; left; exact C].
    destruct (Z.le_gt_cases H 8192) as [D|D]; [|right; right; right; exact D].
    destruct Hiff as [_ Hiff].
    assert (false = true) by (apply Hiff; repeat split; assumption).
    discriminate.
Qed.

(** X1: with non-power-of-two sizes allowed, the resolution check is closed
    downwards: when a width and a height pass, every width and height that
    are not larger pass too, on any platform. *)
Theorem X1_resolution_downward_closed (W H W' H' : Z) :
  IsImportResolutionValid GMaxTextureMipCount FMath_IsPowerOfTwo W H true = true ->
  W' <= W -> H' <= H ->
  IsImportResolutionValid GMaxTextureMipCount FMath_IsPowerOfTwo W' H' true = true.
Proof.
  rewrite !IsImportResolutionValid_true_iff.
  intros (A & B & C & D) HW HH.
  repeat split; eapply Z.le_trans; eassumption.
Qed.

(** X2: the resolution check has no lower bound.  On a platform whose mip
    count is between 1 and 31, dimensions that are 1, zero or negative pass
    when non-power-of-two sizes are allowed. *)
Theorem X2_resolution_no_lower_bound (W H : Z) :
  1 <= GMaxTextureMipCount <= 31 -> W <= 1 -> H <= 1 ->
  IsImportResolutionValid GMaxTextureMipCount FMath_IsPowerOfTwo W H true = true.
Proof.
  intros HG HW HH. apply IsImportResolutionValid_true_iff.
  rewrite (MaximumSupportedResolution_pow GMaxTextureMipCount HG).
  assert (1 <= 2 ^ (GMaxTextureMipCount - 1)) as Hp.
  { change 1 with (2 ^ 0) at 1. apply Z.pow_le_mono_r.
    - reflexivity.
    - apply Z.le_0_sub. apply HG. }
  repeat split.
  - apply (Z.le_trans _ 1); assumption.
  - apply (Z.le_trans _ 1); assumption.
  - apply (Z.le_trans _ 1); [assumption | discriminate].
  - apply (Z.le_trans _ 1); [assumption | discriminate].
Qed.

(** X3: forbidding non-power-of-two sizes only adds the power-of-two test to
    the two bounds: the check with [bAllowNonPowerOfTwo = false] is the check
    with [true] and [FMath::IsPowerOfTwo] of both dimensions. *)
Theorem X3_resolution_power_of_two_split (W H : Z) :
  IsImportResolutionValid GMaxTextureMipCount FMath_IsPowerOfTwo W H false
  = IsImportResolutionValid GMaxTextureMipCount FMath_IsPowerOfTwo W H true
    && (FMath_IsPowerOfTwo W && FMath_IsPowerOfTwo H).
Proof.
  rewrite !IsImportResolutionValid_unfold. simpl.
  rewrite negb_involutive, andb_true_r.
  destruct (negb _), (FMath_IsPowerOfTwo W && FMath_IsPowerOfTwo H), (negb _);
    reflexivity.
Qed.

(** ** What the import never does *)

Lemma IsImportResolutionValid_allow_any (P1 P2 : Z -> bool) (W H : Z) :
  IsImportResolutionValid GMaxTextureMipCount P1 W H true
  = IsImportResolutionValid GMaxTextureMipCount P2 W H true.
Proof. reflexivity. Qed.

(** X4: the import does not depend on [FMath::IsPowerOfTwo]: with any two
    versions of it, [ImportBufferAsImage] gives the same result on every
    buffer, and so does [ImportFileAsImage] on every file. *)
Theorem X4_import_ignores_power_of_two (P1 P2 : Z -> bool) :
  (forall Buffer Length Image,
      ImportBufferAsImage GMaxTextureMipCount P1 ImageWrapperModule TGAHelpers
        PNGHelpers Buffer Length Image
      = ImportBufferAsImage GMaxTextureMipCount P2 ImageWrapperModule TGAHelpers
          PNGHelpers Buffer Length Image)
  /\
  (forall ImageFilename Image,
      ImportFileAsImage GMaxTextureMipCount P1 ImageWrapperModule TGAHelpers
        PNGHelpers FileManager ImageFilename Image
      = ImportFileAsImage GMaxTextureMipCount P2 ImageWrapperModule TGAHelpers
          PNGHelpers FileManager ImageFilename Image).
Proof.
  assert (forall Buffer Length Image,
             ImportBufferAsImage GMaxTextureMipCount P1 ImageWrapperModule TGAHelpers
               PNGHelpers Buffer Length Image
             = ImportBufferAsImage GMaxTextureMipCount P2 ImageWrapperModule TGAHelpers
                 PNGHelpers Buffer Length Image) as HB.
  { intros Buffer Length Image. unfold ImportBufferAsImage.
    destruct (TryWrapper _ EImageFormat.PNG _ _) as [[w|] c1].
    { unfold ImportPNG. rewrite (IsImportResolutionValid_allow_any P1 P2). reflexivity. }
    destruct (TryWrapper _ EImageFormat.JPEG _ _) as [[w|] c2].
    { unfold ImportJPEG. rewrite (IsImportResolutionValid_allow_any P1 P2). reflexivity. }
    destruct (TryWrapper _ EImageFormat.BMP _ _) as [[w|] c3].
    { unfold ImportBMP. rewrite (IsImportResolutionValid_allow_any P1 P2). reflexivity. }
    destruct (IsSupportedTGA _ _ _); [|reflexivity].
    unfold ImportTGA. rewrite (IsImportResolutionValid_allow_any P1 P2). reflexivity. }
  split; [exact HB|].
  intros ImageFilename Image. unfold ImportFileAsImage.
  destruct (negb _); [reflexivity|].
  destruct (_ =? _); [reflexivity|].
  destruct (_ >? _); [reflexivity|].
  destruct (LoadFileToArray _ _); [|reflexivity].
  rewrite HB. reflexivity.
Qed.

Lemma probes_are_no_decode (cs : list ECall) :
  Forall (fun c => IsProbe c = true) cs -> existsb IsDecodeCall cs = false.
Proof.
  induction 1 as [|c cs Hc _ IH]; [reflexivity|].
  simpl. rewrite IH. destruct c; try discriminate; reflexivity.
Qed.

(** X5: an image whose announced size fails one of the two bounds is never
    decoded: [ImportBufferAsImage] returns false with the resolution error,
    leaves the image alone, and calls neither [GetRaw] nor [DecompressTGA]. *)
Theorem X5_oversized_never_decoded (Buffer : list byte) (Length : Z)
    (Image : FRuntimeImageData) (W H : Z) :
  DecodedSize (Kind Buffer Length) = Some (W, H) ->
  MaxRes < W \/ MaxRes < H \/ 8192 < W \/ 8192 < H ->
  RejectedWith (Import Buffer Length Image) (ResolutionError W H) /\
  OutImage (Import Buffer Length Image) = Image /\
  existsb IsDecodeCall (Calls (Import Buffer Length Image)) = false.
Proof.
  intros Hsize Hbig. apply IsImportResolutionValid_false_iff in Hbig.
  destruct (ImportBufferAsImage_dispatch GMaxTextureMipCount FMath_IsPowerOfTwo
              ImageWrapperModule TGAHelpers PNGHelpers Buffer Length Image)
    as (cs & Fcs & E).
  rewrite E.
  rewrite (resolution_failure GMaxTextureMipCount FMath_IsPowerOfTwo TGAHelpers
             PNGHelpers _ Buffer Image _ _ Hsize Hbig).
  simpl. rewrite app_nil_r.
  split; [split; reflexivity|]. split; [reflexivity|].
  apply probes_are_no_decode. assumption.
Qed.

Lemma Handle_false_image (c : EContainer) (Buffer : list byte)
    (Image : FRuntimeImageData) :
  (forall TGA, c <> IsTGA TGA) ->
  Returned (Handle c Buffer Image) = false ->
  OutImage (Handle c Buffer Image) = Image.
Proof.
  intros Hc. destruct c as [w|w|w|t|]; simpl.
  - unfold ImportPNG. destruct (Valid _ _ true); simpl; [|reflexivity].
    destruct (SelectPNGFormat _ _) as [[tf f] d].
    destruct (d =? 16); [reflexivity|].
    destruct (is_TSF_Invalid tf); [reflexivity|].
    destruct (GetRaw w f d); simpl; [discriminate | reflexivity].
  - unfold ImportJPEG. destruct (Valid _ _ true); simpl; [|reflexivity].
    destruct (SelectJPEGFormat _ _) as [[tf f] d].
    destruct (is_TSF_Invalid tf); [reflexivity|].
    destruct (GetRaw w f d); simpl; [discriminate | reflexivity].
  - unfold ImportBMP. destruct (Valid _ _ true); simpl; [|reflexivity].
    destruct (GetRaw w _ _); simpl; [discriminate | reflexivity].
  - exfalso. apply (Hc t). reflexivity.
  - reflexivity.
Qed.

(** X6: a failed import produces no partial image.  When
    [ImportBufferAsImage] returns false on a buffer that is not taken for a
    TGA file, the image is exactly as it was given; on a TGA file it is as it
    was given or as [DecompressTGA] left it. *)
Theorem X6_failed_import_leaves_image (Buffer : list byte) (Length : Z)
    (Image : FRuntimeImageData) :
  Returned (Import Buffer Length Image) = false ->
  ((forall TGA, Kind Buffer Length <> IsTGA TGA) ->
   OutImage (Import Buffer Length Image) = Image) /\
  (forall TGA, Kind Buffer Length = IsTGA TGA ->
   OutImage (Import Buffer Length Image) = Image \/
   OutImage (Import Buffer Length Image)
   = snd (fst (DecompressTGA TGAHelpers TGA Buffer Image))).
Proof.
  destruct (ImportBufferAsImage_dispatch GMaxTextureMipCount FMath_IsPowerOfTwo
              ImageWrapperModule TGAHelpers PNGHelpers Buffer Length Image)
    as (cs & _ & E).
  rewrite E. simpl. intros Hret. split.
  - intros Hk. apply Handle_false_image; assumption.
  - intros TGA HK. rewrite HK in *. simpl in *. revert Hret. unfold ImportTGA.
    destruct (Valid _ _ true); simpl; [|left; reflexivity].
    destruct (DecompressTGA TGAHelpers TGA Buffer Image) as [[b i] e].
    destruct b; simpl; [discriminate | right; reflexivity].
Qed.

Lemma Handle_false_catalogue (c : EContainer) (Buffer : list byte)
    (Image : FRuntimeImageData) :
  Returned (Handle c Buffer Image) = false ->
  exists msg, OutError (Handle c Buffer Image) = Some msg /\ In msg (ErrorsOf c).
Proof.
  destruct c as [w|w|w|t|]; simpl.
  - unfold ImportPNG. destruct (Valid _ _ true); simpl.
    + destruct (SelectPNGFormat _ _) as [[tf f] d].
      destruct (d =? 16); [intros _; eexists; split; [reflexivity | simpl; tauto]|].
      destruct (is_TSF_Invalid tf);
        [intros _; eexists; split; [reflexivity | simpl; tauto]|].
      destruct (GetRaw w f d); simpl; [discriminate|].
      intros _; eexists; split; [reflexivity | simpl; tauto].
    + intros _. eexists. split; [reflexivity | left; reflexivity].
  - unfold ImportJPEG. destruct (Valid _ _ true); simpl.
    + destruct (SelectJPEGFormat _ _) as [[tf f] d].
      destruct (is_TSF_Invalid tf);
        [intros _; eexists; split; [reflexivity | simpl; tauto]|].
      destruct (GetRaw w f d); simpl; [discriminate|].
      intros _; eexists; split; [reflexivity | simpl; tauto].
    + intros _. eexists. split; [reflexivity | left; reflexivity].
  - unfold ImportBMP. destruct (Valid _ _ true); simpl.
    + destruct (GetRaw w _ _); simpl; [discriminate|].
      intros _; eexists; split; [reflexivity | simpl; tauto].
    + intros _. eexists. split; [reflexivity | left; reflexivity].
  - unfold ImportTGA. destruct (Valid _ _ true); simpl.
    + destruct (DecompressTGA TGAHelpers t Buffer Image) as [[b i] e].
      destruct b; simpl; [discriminate|].
      intros _; eexists; split; [reflexivity | simpl; tauto].
    + intros _. eexists. split; [reflexivity | left; reflexivity].
  - intros _. eexists. split; [reflexivity | left; reflexivity].
Qed.

(** X7: the error texts are a closed catalogue.  When [ImportBufferAsImage]
    returns false, [OutError] holds one of the texts of the block that
    handled the buffer: the resolution error, or one of the fixed texts of
    that container.  In particular a text that [DecompressTGA] wrote never
    reaches the caller of a failed import: it is replaced by "Failed to
    decompress TGA.". *)
Theorem X7_error_catalogue (Buffer : list byte) (Length : Z) (Image : FRuntimeImageData) :
  Returned (Import Buffer Length Image) = false ->
  exists msg,
    OutError (Import Buffer Length Image) = Some msg /\
    In msg (ErrorsOf (Kind Buffer Length)).
Proof.
  destruct (ImportBufferAsImage_dispatch GMaxTextureMipCount FMath_IsPowerOfTwo
              ImageWrapperModule TGAHelpers PNGHelpers Buffer Length Image)
    as (cs & _ & E).
  rewrite E. simpl. apply Handle_false_catalogue.
Qed.

(** ** The verdict on each container *)

Lemma Import_of_kind (Buffer : list byte) (Length : Z) (Image : FRuntimeImageData) :
  Returned (Import Buffer Length Image)
  = Returned (Handle (Kind Buffer Length) Buffer Image) /\
  OutImage (Import Buffer Length Image)
  = OutImage (Handle (Kind Buffer Length) Buffer Image) /\
  OutError (Import Buffer Length Image)
  = OutError (Handle (Kind Buffer Length) Buffer Image).
Proof.
  destruct (ImportBufferAsImage_dispatch GMaxTextureMipCount FMath_IsPowerOfTwo
              ImageWrapperModule TGAHelpers PNGHelpers Buffer Length Image)
    as (cs & _ & E).
  rewrite E. repeat split.
Qed.

(** The channel layout in which the PNG and JPEG blocks ask for 8-bit pixels. *)
Lemma SelectPNGFormat_8bit (f : ERGBFormat.t) (d : Z) :
  d <= 8 -> f <> ERGBFormat.Invalid ->
  SelectPNGFormat f d
  = match f with
    | ERGBFormat.Gray => (TSF_G8, ERGBFormat.Gray, 8)
    | _ => (TSF_BGRA8, ERGBFormat.BGRA, 8)
    end.
Proof.
  intros Hd Hf. unfold SelectPNGFormat.
  destruct (Z.leb_spec d 8) as [_|Hgt].
  - destruct f; try reflexivity. contradiction.
  - exfalso. apply (Z.lt_irrefl 8). apply (Z.lt_le_trans _ _ _ Hgt Hd).
Qed.

Lemma SelectPNGFormat_unsupported (f : ERGBFormat.t) (d : Z) :
  d <> 16 -> 8 < d \/ f = ERGBFormat.Invalid ->
  SelectPNGFormat f d = (TSF_Invalid, f, d).
Proof.
  intros H16 [Hgt | ->]; [|reflexivity].
  unfold SelectPNGFormat.
  destruct (Z.leb_spec d 8) as [Hle|_].
  - exfalso. apply (Z.lt_irrefl 8). apply (Z.lt_le_trans _ _ _ Hgt Hle).
  - destruct (Z.eqb_spec d 16); [contradiction|]. destruct f; reflexivity.
Qed.

Lemma SelectPNGFormat_16bit (f : ERGBFormat.t) :
  snd (SelectPNGFormat f 16) = 16.
Proof. destruct f; reflexivity. Qed.

(** X8: the verdict on a PNG that passed the resolution check.  A bit depth
    of 16 is rejected as "16bit PNG file is not supported" whatever the
    channel layout; any other depth above 8, or an invalid layout, is
    rejected as an unsupported format; otherwise the pixels are asked for at
    8 bits, as [Gray] for a grayscale image and as [BGRA] for a colour image,
    and the import succeeds with the format [TSF_G8] or [TSF_BGRA8], [SRGB]
    set and the pixels passed through [FillZeroAlphaPNGData], or fails with
    "Failed to decode PNG." when the wrapper gives no pixels. *)
Theorem X8_png_verdict (Buffer : list byte) (Length : Z) (Image : FRuntimeImageData)
    (w : FLoadedImage) :
  Kind Buffer Length = IsPNG w ->
  Valid (GetWidth w) (GetHeight w) true = true ->
  (GetBitDepth w = 16 ->
   RejectedWith (Import Buffer Length Image) "16bit PNG file is not supported")
  /\
  (GetBitDepth w <> 16 ->
   8 < GetBitDepth w \/ GetFormat w = ERGBFormat.Invalid ->
   RejectedWith (Import Buffer Length Image)
     "PNG file contains data in an unsupported format.")
  /\
  (GetBitDepth w <= 8 -> GetFormat w <> ERGBFormat.Invalid ->
   match GetRaw w (match GetFormat w with
                   | ERGBFormat.Gray => ERGBFormat.Gray
                   | _ => ERGBFormat.BGRA
                   end) 8 with
   | Some Raw =>
       Returned (Import Buffer Length Image) = true /\
       Format (OutImage (Import Buffer Length Image))
       = match GetFormat w with ERGBFormat.Gray => TSF_G8 | _ => TSF_BGRA8 end /\
       SRGB (OutImage (Import Buffer Length Image)) = true /\
       RawData (OutImage (Import Buffer Length Image))
       = FillZeroAlphaPNGData PNGHelpers (GetWidth w) (GetHeight w)
           (match GetFormat w with ERGBFormat.Gray => TSF_G8 | _ => TSF_BGRA8 end)
           Raw
   | None => RejectedWith (Import Buffer Length Image) "Failed to decode PNG."
   end).
Proof.
  intros HK Hv.
  destruct (Import_of_kind Buffer Length Image) as (E1 & E2 & E3).
  unfold RejectedWith. rewrite ?E1, ?E2, ?E3, HK. simpl. unfold ImportPNG. rewrite Hv. simpl.
  split; [| split].
  - intros H16. rewrite H16.
    pose proof (SelectPNGFormat_16bit (GetFormat w)) as Hs.
    destruct (SelectPNGFormat (GetFormat w) 16) as [[tf f] d].
    simpl in Hs. subst d. simpl. split; reflexivity.
  - intros H16 Hbad. rewrite (SelectPNGFormat_unsupported _ _ H16 Hbad).
    destruct (Z.eqb_spec (GetBitDepth w) 16); [contradiction|].
    simpl. split; reflexivity.
  - intros H8 Hf. rewrite (SelectPNGFormat_8bit _ _ H8 Hf).
    destruct (GetFormat w); try contradiction; simpl;
      match goal with
      | |- context [GetRaw w ?f 8] => destruct (GetRaw w f 8)
      end; simpl; repeat split.
Qed.

Lemma SelectJPEGFormat_8bit (f : ERGBFormat.t) (d : Z) :
  d <= 8 -> f = ERGBFormat.Gray \/ f = ERGBFormat.RGBA ->
  SelectJPEGFormat f d
  = match f with
    | ERGBFormat.Gray => (TSF_G8, ERGBFormat.Gray, 8)
    | _ => (TSF_BGRA8, ERGBFormat.BGRA, 8)
    end.
Proof.
  intros Hd Hf. unfold SelectJPEGFormat.
  destruct (Z.leb_spec d 8) as [_|Hgt].
  - destruct Hf as [-> | ->]; reflexivity.
  - exfalso. apply (Z.lt_irrefl 8). apply (Z.lt_le_trans _ _ _ Hgt Hd).
Qed.

Lemma SelectJPEGFormat_unsupported (f : ERGBFormat.t) (d : Z) :
  8 < d \/ (f <> ERGBFormat.Gray /\ f <> ERGBFormat.RGBA) ->
  fst (fst (SelectJPEGFormat f d)) = TSF_Invalid.
Proof.
  intros [Hgt | [Hg Hr]]; unfold SelectJPEGFormat.
  - destruct (Z.leb_spec d 8) as [Hle|_].
    + exfalso. apply (Z.lt_irrefl 8). apply (Z.lt_le_trans _ _ _ Hgt Hle).
    + destruct f; reflexivity.
  - destruct f; try reflexivity; contradiction.
Qed.

(** X9: the verdict on a JPEG that passed the resolution check.  Only the
    layouts [Gray] and [RGBA] at a bit depth of at most 8 are decoded: the
    pixels are asked for at 8 bits, as [Gray] or as [BGRA], and the import
    succeeds with [TSF_G8] or [TSF_BGRA8], [SRGB] set and the pixels as the
    wrapper gave them, or fails with "Failed to decode JPEG.".  Everything
    else, a depth above 8 and also the layout [BGRA], is rejected as an
    unsupported format. *)
Theorem X9_jpeg_verdict (Buffer : list byte) (Length : Z) (Image : FRuntimeImageData)
    (w : FLoadedImage) :
  Kind Buffer Length = IsJPEG w ->
  Valid (GetWidth w) (GetHeight w) true = true ->
  (8 < GetBitDepth w \/
   (GetFormat w <> ERGBFormat.Gray /\ GetFormat w <> ERGBFormat.RGBA) ->
   RejectedWith (Import Buffer Length Image)
     "JPEG file contains data in an unsupported format.")
  /\
  (GetBitDepth w <= 8 ->
   GetFormat w = ERGBFormat.Gray \/ GetFormat w = ERGBFormat.RGBA ->
   match GetRaw w (match GetFormat w with
                   | ERGBFormat.Gray => ERGBFormat.Gray
                   | _ => ERGBFormat.BGRA
                   end) 8 with
   | Some Raw =>
       Returned (Import Buffer Length Image) = true /\
       Format (OutImage (Import Buffer Length Image))
       = match GetFormat w with ERGBFormat.Gray => TSF_G8 | _ => TSF_BGRA8 end /\
       SRGB (OutImage (Import Buffer Length Image)) = true /\
       RawData (OutImage (Import Buffer Length Image)) = Raw
   | None => RejectedWith (Import Buffer Length Image) "Failed to decode JPEG."
   end).
Proof.
  intros HK Hv.
  destruct (Import_of_kind Buffer Length Image) as (E1 & E2 & E3).
  unfold RejectedWith. rewrite ?E1, ?E2, ?E3, HK. simpl. unfold ImportJPEG. rewrite Hv. simpl.
  split.
  - intros Hbad. pose proof (SelectJPEGFormat_unsupported _ _ Hbad) as Hs.
    destruct (SelectJPEGFormat _ _) as [[tf f] d]. simpl in Hs. subst tf.
    simpl. split; reflexivity.
  - intros H8 Hf. rewrite (SelectJPEGFormat_8bit _ _ H8 Hf).
    destruct Hf as [-> | ->]; simpl;
      match goal with
      | |- context [GetRaw w ?f 8] => destruct (GetRaw w f 8)
      end; simpl; repeat split.
Qed.

(** X10: the verdict on a BMP that passed the resolution check.  The pixels
    are asked for in the layout and at the depth the wrapper reports, without
    a test of either; when the wrapper gives them the import succeeds, the
    image is labelled [TSF_BGRA8] and holds the pixels as given, and its
    [SRGB] flag and compression setting are as on entry; otherwise the import
    fails with "Failed to decode BMP.". *)
Theorem X10_bmp_verdict (Buffer : list byte) (Length : Z) (Image : FRuntimeImageData)
    (w : FLoadedImage) :
  Kind Buffer Length = IsBMP w ->
  Valid (GetWidth w) (GetHeight w) true = true ->
  match GetRaw w (GetFormat w) (GetBitDepth w) with
  | Some Raw =>
      Returned (Import Buffer Length Image) = true /\
      Format (OutImage (Import Buffer Length Image)) = TSF_BGRA8 /\
      RawData (OutImage (Import Buffer Length Image)) = Raw /\
      SRGB (OutImage (Import Buffer Length Image)) = SRGB Image /\
      CompressionSettings (OutImage (Import Buffer Length Image))
      = CompressionSettings Image
  | None => RejectedWith (Import Buffer Length Image) "Failed to decode BMP."
  end.
Proof.
  intros HK Hv.
  destruct (Import_of_kind Buffer Length Image) as (E1 & E2 & E3).
  unfold RejectedWith. rewrite ?E1, ?E2, ?E3, HK. simpl. unfold ImportBMP. rewrite Hv. simpl.
  destruct (GetRaw w (GetFormat w) (GetBitDepth w)); simpl; repeat split.
Qed.

(** X11: what the import adds to [DecompressTGA].  When
    [ImportBufferAsImage] succeeds on a TGA file, [DecompressTGA] returned
    true, the error is what [DecompressTGA] assigned, and the image is the
    one [DecompressTGA] left, except for its [SRGB] flag, which is cleared
    when the image type is 3 and the compression setting is grayscale and is
    untouched otherwise (so also for an 8-bit paletted file, of type 1). *)
Theorem X11_tga_postprocessing (Buffer : list byte) (Length : Z)
    (Image : FRuntimeImageData) (TGA : FTGAFileHeader) :
  Kind Buffer Length = IsTGA TGA ->
  Returned (Import Buffer Length Image) = true ->
  fst (fst (DecompressTGA TGAHelpers TGA Buffer Image)) = true /\
  OutError (Import Buffer Length Image)
  = snd (DecompressTGA TGAHelpers TGA Buffer Image) /\
  OutImage (Import Buffer Length Image)
  = set_SRGB (snd (fst (DecompressTGA TGAHelpers TGA Buffer Image)))
      (SRGB (OutImage (Import Buffer Length Image))) /\
  (ImageTypeCode TGA = 3 ->
   CompressionSettings (snd (fst (DecompressTGA TGAHelpers TGA Buffer Image)))
   = TC_Grayscale ->
   SRGB (OutImage (Import Buffer Length Image)) = false) /\
  (ImageTypeCode TGA <> 3 \/
   CompressionSettings (snd (fst (DecompressTGA TGAHelpers TGA Buffer Image)))
   <> TC_Grayscale ->
   SRGB (OutImage (Import Buffer Length Image))
   = SRGB (snd (fst (DecompressTGA TGAHelpers TGA Buffer Image)))).
Proof.
  intros HK.
  destruct (Import_of_kind Buffer Length Image) as (E1 & E2 & E3).
  rewrite E1, E2, E3, HK. simpl. unfold ImportTGA.
  destruct (Valid _ _ true); simpl; [|discriminate].
  destruct (DecompressTGA TGAHelpers TGA Buffer Image) as [[b i] e].
  destruct b; simpl; [|discriminate]. intros _.
  split; [reflexivity|]. split; [reflexivity|].
  destruct (Z.eqb_spec (ImageTypeCode TGA) 3) as [H3|H3];
    destruct (is_TC_Grayscale (CompressionSettings i)) eqn:Hg; simpl.
  - split; [reflexivity|]. split; [reflexivity|].
    intros [Hn | Hn]; [contradiction|].
    destruct (CompressionSettings i); try discriminate. exfalso. apply Hn. reflexivity.
  - split; [destruct i; reflexivity|]. split; [|reflexivity].
    intros _ Hc. rewrite Hc in Hg. discriminate.
  - split; [destruct i; reflexivity|]. split; [|reflexivity].
    intros Hc. contradiction.
  - split; [destruct i; reflexivity|]. split; [|reflexivity].
    intros Hc. contradiction.
Qed.

(** X12: a successful import through an image wrapper leaves an image of the
    announced dimensions, and these are within the bounds of the resolution
    check: at most 8192 and at most the maximum supported resolution. *)
Theorem X12_successful_import_size (Buffer : list byte) (Length : Z)
    (Image : FRuntimeImageData) (w : FLoadedImage) :
  Kind Buffer Length = IsPNG w \/ Kind Buffer Length = IsJPEG w \/
  Kind Buffer Length = IsBMP w ->
  Returned (Import Buffer Length Image) = true ->
  SizeX (OutImage (Import Buffer Length Image)) = GetWidth w /\
  SizeY (OutImage (Import Buffer Length Image)) = GetHeight w /\
  GetWidth w <= 8192 /\ GetHeight w <= 8192 /\
  GetWidth w <= MaxRes /\ GetHeight w <= MaxRes.
Proof.
  intros HK.
  destruct (Import_of_kind Buffer Length Image) as (E1 & E2 & _).
  rewrite E1, E2.
  pose proof (IsImportResolutionValid_true_iff (GetWidth w) (GetHeight w)) as Hiff.
  destruct HK as [HK | [HK | HK]]; rewrite HK; simpl.
  - unfold ImportPNG.
    destruct (Valid (GetWidth w) (GetHeight w) true) eqn:Hv; simpl; [|discriminate].
    destruct (SelectPNGFormat _ _) as [[tf f] d].
    destruct (d =? 16); [discriminate|].
    destruct (is_TSF_Invalid tf); [discriminate|].
    destruct (GetRaw w f d); simpl; [|discriminate].
    intros _. destruct Hiff as [Hiff _]. specialize (Hiff eq_refl). tauto.
  - unfold ImportJPEG.
    destruct (Valid (GetWidth w) (GetHeight w) true) eqn:Hv; simpl; [|discriminate].
    destruct (SelectJPEGFormat _ _) as [[tf f] d].
    destruct (is_TSF_Invalid tf); [discriminate|].
    destruct (GetRaw w f d); simpl; [|discriminate].
    intros _. destruct Hiff as [Hiff _]. specialize (Hiff eq_refl). tauto.
  - unfold ImportBMP.
    destruct (Valid (GetWidth w) (GetHeight w) true) eqn:Hv; simpl; [|discriminate].
    destruct (GetRaw w _ _); simpl; [|discriminate].
    intros _. destruct Hiff as [Hiff _]. specialize (Hiff eq_refl). tauto.
Qed.

Lemma Handle_calls (c : EContainer) (Buffer : list byte) (Image : FRuntimeImageData) :
  (Calls (Handle c Buffer Image) = [] \/
   Calls (Handle c Buffer Image) = DecodeCallOf c) /\
  (Returned (Handle c Buffer Image) = true ->
   Calls (Handle c Buffer Image) = DecodeCallOf c /\ DecodeCallOf c <> []).
Proof.
  destruct c as [w|w|w|t|]; simpl.
  - unfold ImportPNG. destruct (Valid _ _ true); simpl;
      [|split; [left; reflexivity | discriminate]].
    destruct (SelectPNGFormat _ _) as [[tf f] d].
    destruct (d =? 16); [split; [left; reflexivity | discriminate]|].
    destruct (is_TSF_Invalid tf); [split; [left; reflexivity | discriminate]|].
    destruct (GetRaw w f d); simpl;
      (split; [right; reflexivity | intros _; split; [reflexivity | discriminate]]).
  - unfold ImportJPEG. destruct (Valid _ _ true); simpl;
      [|split; [left; reflexivity | discriminate]].
    destruct (SelectJPEGFormat _ _) as [[tf f] d].
    destruct (is_TSF_Invalid tf); [split; [left; reflexivity | discriminate]|].
    destruct (GetRaw w f d); simpl;
      (split; [right; reflexivity | intros _; split; [reflexivity | discriminate]]).
  - unfold ImportBMP. destruct (Valid _ _ true); simpl;
      [|split; [left; reflexivity | discriminate]].
    destruct (GetRaw w _ _); simpl;
      (split; [right; reflexivity | intros _; split; [reflexivity | discriminate]]).
  - unfold ImportTGA. destruct (Valid _ _ true); simpl;
      [|split; [left; reflexivity | discriminate]].
    destruct (DecompressTGA TGAHelpers t Buffer Image) as [[b i] e].
    destruct b; simpl;
      (split; [right; reflexivity | intros _; split; [reflexivity | discriminate]]).
  - split; [left; reflexivity | discriminate].
Qed.

(** X13: the calls of an import are the creation and probing of wrappers,
    followed by at most one call that decodes pixels; that call is the
    [GetRaw] of the wrapper that accepted the bytes, or [DecompressTGA] for a
    TGA file, and no import succeeds without it. *)
Theorem X13_calls_shape (Buffer : list byte) (Length : Z) (Image : FRuntimeImageData) :
  exists probes tail,
    Calls (Import Buffer Length Image) = probes ++ tail /\
    Forall (fun c => IsProbe c = true) probes /\
    (tail = [] \/ tail = DecodeCallOf (Kind Buffer Length)) /\
    (Returned (Import Buffer Length Image) = true ->
     tail = DecodeCallOf (Kind Buffer Length) /\ tail <> []).
Proof.
  destruct (ImportBufferAsImage_dispatch GMaxTextureMipCount FMath_IsPowerOfTwo
              ImageWrapperModule TGAHelpers PNGHelpers Buffer Length Image)
    as (cs & Fcs & E).
  rewrite E. simpl.
  destruct (Handle_calls (Kind Buffer Length) Buffer Image) as [Hshape Hok].
  exists cs, (Calls (Handle (Kind Buffer Length) Buffer Image)).
  split; [reflexivity|]. split; [assumption|]. split; [assumption|].
  intros Hret. destruct (Hok Hret) as [Hc Hn]. split; [assumption|].
  rewrite Hc. assumption.
Qed.

(** ** Importing a file *)

Lemma ImportFileAsImage_read (ImageFilename : FString) (Image : FRuntimeImageData)
    (FileBytes : list byte) :
  FileExists FileManager ImageFilename = true ->
  FileSize FileManager ImageFilename <> INDEX_NONE ->
  FileSize FileManager ImageFilename <= 999999999 ->
  LoadFileToArray FileManager ImageFilename = Some FileBytes ->
  ImportFile ImageFilename Image
  = let r :=
      Import (FileBytes ++ [x00]) (Z.of_nat (List.length FileBytes))
        (set_ModificationTime Image
           (Z.max (CreationTime (GetStatData FileManager ImageFilename))
                  (StatModificationTime (GetStatData FileManager ImageFilename)))) in
    Finished (OutImage r) (OutError r)
      ([CallFileExists ImageFilename; CallFileSize ImageFilename;
        CallLoadFileToArray ImageFilename; CallGetStatData ImageFilename]
       ++ Calls r).
Proof.
  intros Hex Hne Hsmall Hload.
  unfold ImportFileAsImage, MAX_FILESIZE_BYTES, INDEX_NONE in *.
  rewrite Hex, Hload. simpl negb. cbv iota.
  destruct (Z.eqb_spec (FileSize FileManager ImageFilename) (-1)); [contradiction|].
  destruct (Z.gtb_spec (FileSize FileManager ImageFilename) 999999999) as [Hgt|_].
  { exfalso. apply (Z.lt_irrefl 999999999). apply (Z.lt_le_trans _ _ _ Hgt Hsmall). }
  cbv zeta. rewrite length_with_terminator. reflexivity.
Qed.

(** X15: how the two imports compose.  For a file that exists, has a size
    other than [INDEX_NONE] and of at most 999999999, and is read,
    [ImportFileAsImage] is [ImportBufferAsImage] on the bytes of the file
    followed by one zero byte, with [Length] the number of bytes of the file
    (the zero byte is not counted, and the size the file manager reported
    plays no part), on the image with its timestamp set; the four calls to
    the file system come before every call of the import. *)
Theorem X15_file_import_composition (ImageFilename : FString)
    (Image : FRuntimeImageData) (FileBytes : list byte) :
  FileExists FileManager ImageFilename = true ->
  FileSize FileManager ImageFilename <> INDEX_NONE ->
  FileSize FileManager ImageFilename <= 999999999 ->
  LoadFileToArray FileManager ImageFilename = Some FileBytes ->
  ImportFile ImageFilename Image
  = Finished
      (OutImage
         (Import (FileBytes ++ [x00]) (Z.of_nat (List.length FileBytes))
            (set_ModificationTime Image
               (Z.max (CreationTime (GetStatData FileManager ImageFilename))
                  (StatModificationTime (GetStatData FileManager ImageFilename))))))
      (OutError
         (Import (FileBytes ++ [x00]) (Z.of_nat (List.length FileBytes))
            (set_ModificationTime Image
               (Z.max (CreationTime (GetStatData FileManager ImageFilename))
                  (StatModificationTime (GetStatData FileManager ImageFilename))))))
      ([CallFileExists ImageFilename; CallFileSize ImageFilename;
        CallLoadFileToArray ImageFilename; CallGetStatData ImageFilename]
       ++ Calls
            (Import (FileBytes ++ [x00]) (Z.of_nat (List.length FileBytes))
               (set_ModificationTime Image
                  (Z.max (CreationTime (GetStatData FileManager ImageFilename))
                     (StatModificationTime (GetStatData FileManager ImageFilename)))))).
Proof. intros. apply ImportFileAsImage_read; assumption. Qed.

(** X16: the [check] on the file size.  [ImportFileAsImage] stops at the
    [check] exactly when the file exists and the file manager reports the
    size [INDEX_NONE]; the file has then not been read and no decoder has
    been called. *)
Theorem X16_size_check_fails_iff (ImageFilename : FString) (Image : FRuntimeImageData) :
  (exists cs, ImportFile ImageFilename Image = CheckFailed cs) <->
  FileExists FileManager ImageFilename = true /\
  FileSize FileManager ImageFilename = INDEX_NONE.
Proof.
  unfold ImportFileAsImage, INDEX_NONE.
  destruct (FileExists FileManager ImageFilename); simpl.
  - destruct (Z.eqb_spec (FileSize FileManager ImageFilename) (-1)) as [Heq|Hne].
    + split; [auto | intros _; eexists; reflexivity].
    + split; [|intros [_ Heq]; contradiction].
      intros [cs Hcs]. exfalso. revert Hcs.
      destruct (_ >? _); [discriminate|].
      destruct (LoadFileToArray _ _); discriminate.
  - split; [intros [cs Hcs]; discriminate | intros [Hf _]; discriminate].
Qed.

(** X17: a decoding failure after a successful read changes the timestamp
    and nothing else.  When the file is read and the import of its bytes
    fails on a buffer that is not taken for a TGA file, [ImportFileAsImage]
    leaves the image it was given with the timestamp overwritten: unlike the
    early returns, it does not leave the image untouched. *)
Theorem X17_failed_decode_keeps_timestamp (ImageFilename : FString)
    (Image : FRuntimeImageData) (FileBytes : list byte) :
  FileExists FileManager ImageFilename = true ->
  FileSize FileManager ImageFilename <> INDEX_NONE ->
  FileSize FileManager ImageFilename <= 999999999 ->
  LoadFileToArray FileManager ImageFilename = Some FileBytes ->
  (forall TGA,
      Kind (FileBytes ++ [x00]) (Z.of_nat (List.length FileBytes)) <> IsTGA TGA) ->
  Returned
    (Import (FileBytes ++ [x00]) (Z.of_nat (List.length FileBytes))
       (set_ModificationTime Image
          (Z.max (CreationTime (GetStatData FileManager ImageFilename))
             (StatModificationTime (GetStatData FileManager ImageFilename)))))
  = false ->
  exists msg cs,
    ImportFile ImageFilename Image
    = Finished
        (set_ModificationTime Image
           (Z.max (CreationTime (GetStatData FileManager ImageFilename))
              (StatModificationTime (GetStatData FileManager ImageFilename))))
        (Some msg) cs /\
    In msg (ErrorsOf (Kind (FileBytes ++ [x00]) (Z.of_nat (List.length FileBytes)))).
Proof.
  intros Hex Hne Hsmall Hload Hk Hret.
  rewrite (ImportFileAsImage_read ImageFilename Image FileBytes Hex Hne Hsmall Hload).
  cbv zeta.
  destruct (Import_of_kind (FileBytes ++ [x00]) (Z.of_nat (List.length FileBytes))
              (set_ModificationTime Image
                 (Z.max (CreationTime (GetStatData FileManager ImageFilename))
                    (StatModificationTime (GetStatData FileManager ImageFilename)))))
    as (E1 & E2 & E3).
  rewrite E1 in Hret.
  destruct (Handle_false_catalogue _ _ _ Hret) as (msg & Hmsg & Hin).
  exists msg. eexists. split; [|exact Hin].
  rewrite E2, E3, Hmsg, (Handle_false_image _ _ _ Hk Hret). reflexivity.
Qed.

(** X18: the order of the file-system calls.  Whatever happens,
    [ImportFileAsImage] first asks whether the file exists.  It reads the
    file only after the size was asked for and found to be neither
    [INDEX_NONE] nor above 999999999, and it calls a decoder only after the
    file was read and its time stamps were asked for. *)
Theorem X18_file_calls_order (ImageFilename : FString) (Image : FRuntimeImageData) :
  (exists rest,
      FileCalls (ImportFile ImageFilename Image) = CallFileExists ImageFilename :: rest)
  /\
  (existsb IsReadCall (FileCalls (ImportFile ImageFilename Image)) = true ->
   FileSize FileManager ImageFilename <> INDEX_NONE /\
   FileSize FileManager ImageFilename <= 999999999 /\
   exists rest,
     FileCalls (ImportFile ImageFilename Image)
     = [CallFileExists ImageFilename; CallFileSize ImageFilename;
        CallLoadFileToArray ImageFilename] ++ rest)
  /\
  (existsb IsDecoderCall (FileCalls (ImportFile ImageFilename Image)) = true ->
   exists FileBytes rest,
     LoadFileToArray FileManager ImageFilename = Some FileBytes /\
     FileCalls (ImportFile ImageFilename Image)
     = [CallFileExists ImageFilename; CallFileSize ImageFilename;
        CallLoadFileToArray ImageFilename; CallGetStatData ImageFilename] ++ rest).
Proof.
  unfold ImportFileAsImage, MAX_FILESIZE_BYTES, INDEX_NONE.
  destruct (FileExists FileManager ImageFilename); simpl;
    [|split; [eexists; reflexivity | split; discriminate]].
  destruct (Z.eqb_spec (FileSize FileManager ImageFilename) (-1)) as [Heq|Hne]; simpl;
    [split; [eexists; reflexivity | split; discriminate]|].
  destruct (Z.gtb_spec (FileSize FileManager ImageFilename) 999999999) as [Hgt|Hle]; simpl;
    [split; [eexists; reflexivity | split; discriminate]|].
  destruct (LoadFileToArray FileManager ImageFilename) as [FileBytes|]; simpl.
  - split; [eexists; reflexivity|]. split.
    + intros _. split; [assumption|]. split; [assumption|]. eexists; reflexivity.
    + intros _. exists FileBytes. eexists. split; reflexivity.
  - split; [eexists; reflexivity|]. split; [|discriminate].
    intros _. split; [assumption|]. split; [assumption|]. exists []. reflexivity.
Qed.

Lemma Handle_frame (c : EContainer) (Buffer : list byte) (I1 I2 : FRuntimeImageData) :
  (forall TGA, c <> IsTGA TGA) ->
  Returned (Handle c Buffer I1) = Returned (Handle c Buffer I2) /\
  OutError (Handle c Buffer I1) = OutError (Handle c Buffer I2) /\
  Calls (Handle c Buffer I1) = Calls (Handle c Buffer I2).
Proof.
  intros Hc. destruct c as [w|w|w|t|]; simpl.
  - unfold ImportPNG. destruct (Valid _ _ true); simpl; [|repeat split].
    destruct (SelectPNGFormat _ _) as [[tf f] d].
    destruct (d =? 16); [repeat split|].
    destruct (is_TSF_Invalid tf); [repeat split|].
    destruct (GetRaw w f d); simpl; repeat split.
  - unfold ImportJPEG. destruct (Valid _ _ true); simpl; [|repeat split].
    destruct (SelectJPEGFormat _ _) as [[tf f] d].
    destruct (is_TSF_Invalid tf); [repeat split|].
    destruct (GetRaw w f d); simpl; repeat split.
  - unfold ImportBMP. destruct (Valid _ _ true); simpl; [|repeat split].
    destruct (GetRaw w _ _); simpl; repeat split.
  - exfalso. apply (Hc t). reflexivity.
  - repeat split.
Qed.

(** X19: the verdict of an import through an image wrapper does not look at
    the image it is given.  For a buffer that is not taken for a TGA file,
    the return value, the error and the calls are the same whatever image is
    passed in, a fresh one or one that holds the result of an earlier
    import. *)
Theorem X19_import_frame (Buffer : list byte) (Length : Z) (I1 I2 : FRuntimeImageData) :
  (forall TGA, Kind Buffer Length <> IsTGA TGA) ->
  Returned (Import Buffer Length I1) = Returned (Import Buffer Length I2) /\
  OutError (Import Buffer Length I1) = OutError (Import Buffer Length I2) /\
  Calls (Import Buffer Length I1) = Calls (Import Buffer Length I2).
Proof.
  intros Hk.
  destruct (Handle_frame (Kind Buffer Length) Buffer I1 I2 Hk) as (A & B & C).
  assert (exists cs, Import Buffer Length I1
                     = after cs (Handle (Kind Buffer Length) Buffer I1) /\
                     Import Buffer Length I2
                     = after cs (Handle (Kind Buffer Length) Buffer I2))
    as (cs & F1 & F2).
  { unfold ImportBufferAsImage, Classify.
    rewrite <- !(TryWrapper_fst ImageWrapperModule).
    destruct (TryWrapper _ EImageFormat.PNG _ _) as [[w1|] c1]; simpl;
      [eexists; split; reflexivity|].
    destruct (TryWrapper _ EImageFormat.JPEG _ _) as [[w2|] c2]; simpl;
      [eexists; split; reflexivity|].
    destruct (TryWrapper _ EImageFormat.BMP _ _) as [[w3|] c3]; simpl;
      [eexists; split; reflexivity|].
    destruct (IsSupportedTGA _ _ _); eexists; split; reflexivity. }
  rewrite F1, F2. simpl. rewrite C.
  split; [assumption|]. split; [assumption | reflexivity].
Qed.

End FurtherProperties.

(** ** The length test of the TGA block *)

(** X14: the length test of the TGA block compares an [int32] with a
    [size_t].  A negative [Length] is converted to a huge unsigned number
    and passes the test, so that the header fields alone decide. *)
Theorem X14_negative_length_passes (TGAHelpers : FTGAHelpers) (Length : Z)
    (TGA : FTGAFileHeader) :
  - 2 ^ 31 <= Length < 0 ->
  sizeof_FTGAFileHeader TGAHelpers <= 2 ^ 63 ->
  IsSupportedTGA TGAHelpers Length TGA = true <->
  (ColorMapType TGA = 0 /\
   (ImageTypeCode TGA = 2 \/ ImageTypeCode TGA = 3 \/ ImageTypeCode TGA = 10)) \/
  (ColorMapType TGA = 1 /\ ImageTypeCode TGA = 1 /\ BitsPerPixel TGA = 8).
Proof.
  intros HL Hs. unfold IsSupportedTGA. rewrite (to_size_t_negative Length HL).
  assert ((Length + 2 ^ 64 >=? sizeof_FTGAFileHeader TGAHelpers) = true) as ->.
  { apply Z.geb_le. apply negative_int32_is_large; assumption. }
  rewrite andb_true_l, !orb_true_iff, !andb_true_iff, !Z.eqb_eq. tauto.
Qed.

(** ** The placeholder texture *)

(** X20: the mip of the placeholder.  On the game thread, and for a pixel
    format whose block size fits an unsigned 32-bit number,
    [CreateDummyTexture] gives a texture that never streams, named after the
    base name of the file, with a single mip whose bulk data is exactly one
    block of the chosen pixel format, all bytes zero. *)
Theorem X20_dummy_texture_mip (Engine : FEngine) (ImageFilename : FString)
    (ImageFormat : ETextureSourceFormat) :
  IsInGameThread Engine = true ->
  0 <= BlockBytes Engine (SelectPixelFormat ImageFormat) < 2 ^ 32 ->
  exists Texture Mip,
    CreateDummyTexture Engine ImageFilename ImageFormat = Some Texture /\
    NeverStream Texture = true /\
    ObjectName Texture
    = MakeUniqueObjectName Engine (GetBaseFilename Engine ImageFilename) /\
    Mips (PlatformData Texture) = [Mip] /\
    Z.of_nat (List.length (BulkData Mip))
    = BlockBytes Engine (PixelFormat (PlatformData Texture)) /\
    Forall (fun b => b = x00) (BulkData Mip).
Proof.
  intros Hgt Hb.
  set (n := Z.to_nat ((1 * 1 * BlockBytes Engine (SelectPixelFormat ImageFormat))
                      mod 2 ^ 32)).
  eexists. exists {| MipSizeX := 1; MipSizeY := 1; BulkData := repeat x00 n |}.
  split; [unfold CreateDummyTexture; rewrite Hgt; reflexivity|].
  cbn [NeverStream ObjectName PlatformData Mips PixelFormat BulkData].
  split; [reflexivity|]. split; [reflexivity|]. split; [reflexivity|].
  split.
  - rewrite repeat_length. unfold n.
    rewrite Z2Nat.id by (apply Z.mod_pos_bound; reflexivity).
    rewrite !Z.mul_1_l. apply Z.mod_small. assumption.
  - apply Forall_forall. intros b Hin. apply repeat_spec in Hin. assumption.
Qed.

(** ** The further properties on concrete engines *)

Lemma GrayPNG_is_no_TGA (TGA : FTGAFileHeader) :
  Classify ToyWrappers ToyTGA GrayPNG (Len GrayPNG) <> IsTGA TGA.
Proof. discriminate. Defined.

Lemma Gray16PNG_file_is_no_TGA (TGA : FTGAFileHeader) :
  Classify ToyWrappers ToyTGA (Gray16PNG ++ [x00]) (Z.of_nat (List.length Gray16PNG))
  <> IsTGA TGA.
Proof. discriminate. Defined.

(** X1: 8192 x 8192 passes with 14 mip levels, hence so does 100 x 50. *)
Lemma X1_resolution_downward_closed_witness :
  IsImportResolutionValid 14 IsPowerOfTwo 8192 8192 true = true /\
  100 <= 8192 /\ 50 <= 8192 /\
  IsImportResolutionValid 14 IsPowerOfTwo 100 50 true = true.
Proof.
  assert (100 <= 8192) as H1 by discriminate.
  assert (50 <= 8192) as H2 by discriminate.
  exact (conj eq_refl (conj H1 (conj H2
           (X1_resolution_downward_closed 14 IsPowerOfTwo 8192 8192 100 50
              eq_refl H1 H2)))).
Defined.

(** X2: a width of 0 and a height of -3 pass. *)
Lemma X2_resolution_no_lower_bound_witness :
  1 <= 14 <= 31 /\ 0 <= 1 /\ -3 <= 1 /\
  IsImportResolutionValid 14 IsPowerOfTwo 0 (-3) true = true.
Proof.
  assert (1 <= 14 <= 31) as HG by (split; discriminate).
  assert (0 <= 1) as H1 by discriminate.
  assert (-3 <= 1) as H2 by discriminate.
  exact (conj HG (conj H1 (conj H2
           (X2_resolution_no_lower_bound 14 IsPowerOfTwo 0 (-3) HG H1 H2)))).
Defined.

(** X5: a PNG of 16385 x 16385. *)
Lemma X5_oversized_never_decoded_witness :
  DecodedSize (Classify ToyWrappers ToyTGA HugePNG (Len HugePNG)) = Some (16385, 16385) /\
  (MaximumSupportedResolution 14 < 16385 \/ MaximumSupportedResolution 14 < 16385 \/
   8192 < 16385 \/ 8192 < 16385) /\
  RejectedWith (Run 14 HugePNG) (ResolutionError 16385 16385) /\
  OutImage (Run 14 HugePNG) = EmptyImage /\
  existsb IsDecodeCall (Calls (Run 14 HugePNG)) = false.
Proof.
  assert (MaximumSupportedResolution 14 < 16385 \/ MaximumSupportedResolution 14 < 16385 \/
          8192 < 16385 \/ 8192 < 16385) as Hbig by (left; reflexivity).
  exact (conj eq_refl (conj Hbig
           (X5_oversized_never_decoded 14 IsPowerOfTwo ToyWrappers ToyTGA ToyPNG
              HugePNG (Len HugePNG) EmptyImage 16385 16385 eq_refl Hbig))).
Defined.

(** X6: a 16-bit PNG, whose import fails. *)
Lemma X6_failed_import_leaves_image_witness :
  Returned (Run 14 Gray16PNG) = false /\
  (forall TGA, Classify ToyWrappers ToyTGA Gray16PNG (Len Gray16PNG) <> IsTGA TGA) /\
  OutImage (Run 14 Gray16PNG) = EmptyImage.
Proof.
  assert (forall TGA, Classify ToyWrappers ToyTGA Gray16PNG (Len Gray16PNG) <> IsTGA TGA)
    as Hk by (intros TGA; discriminate).
  exact (conj eq_refl (conj Hk
           (proj1 (X6_failed_import_leaves_image 14 IsPowerOfTwo ToyWrappers ToyTGA
                     ToyPNG Gray16PNG (Len Gray16PNG) EmptyImage eq_refl) Hk))).
Defined.

(** X7: the error of a 16-bit PNG is one of the four texts of the PNG block. *)
Lemma X7_error_catalogue_witness :
  Returned (Run 14 Gray16PNG) = false /\
  exists msg,
    OutError (Run 14 Gray16PNG) = Some msg /\
    In msg (ErrorsOf (IsPNG (ToyLoaded Gray16PNG))).
Proof.
  exact (conj eq_refl
           (X7_error_catalogue 14 IsPowerOfTwo ToyWrappers ToyTGA ToyPNG
              Gray16PNG (Len Gray16PNG) EmptyImage eq_refl)).
Defined.

(** X8: a grayscale PNG of 8 bits decodes to [TSF_G8]. *)
Lemma X8_png_verdict_witness :
  (Classify ToyWrappers ToyTGA GrayPNG (Len GrayPNG) = IsPNG (ToyLoaded GrayPNG) /\
   IsImportResolutionValid 14 IsPowerOfTwo 3 5 true = true /\
   GetBitDepth (ToyLoaded GrayPNG) <= 8 /\
   GetFormat (ToyLoaded GrayPNG) <> ERGBFormat.Invalid) /\
  Returned (Run 14 GrayPNG) = true /\
  Format (OutImage (Run 14 GrayPNG)) = TSF_G8 /\
  SRGB (OutImage (Run 14 GrayPNG)) = true /\
  RawData (OutImage (Run 14 GrayPNG)) = [x01].
Proof.
  assert (GetBitDepth (ToyLoaded GrayPNG) <= 8) as H8 by discriminate.
  assert (GetFormat (ToyLoaded GrayPNG) <> ERGBFormat.Invalid) as Hf by discriminate.
  exact (conj (conj eq_refl (conj eq_refl (conj H8 Hf)))
           (proj2 (proj2 (X8_png_verdict 14 IsPowerOfTwo ToyWrappers ToyTGA ToyPNG
                            GrayPNG (Len GrayPNG) EmptyImage (ToyLoaded GrayPNG)
                            eq_refl eq_refl)) H8 Hf)).
Defined.

(** X9: a colour JPEG of 8 bits decodes to [TSF_BGRA8]. *)
Lemma X9_jpeg_verdict_witness :
  (Classify ToyWrappers ToyTGA ColorJPEG (Len ColorJPEG) = IsJPEG (ToyLoaded ColorJPEG) /\
   IsImportResolutionValid 14 IsPowerOfTwo 3 5 true = true /\
   GetBitDepth (ToyLoaded ColorJPEG) <= 8 /\
   (GetFormat (ToyLoaded ColorJPEG) = ERGBFormat.Gray \/
    GetFormat (ToyLoaded ColorJPEG) = ERGBFormat.RGBA)) /\
  Returned (Run 14 ColorJPEG) = true /\
  Format (OutImage (Run 14 ColorJPEG)) = TSF_BGRA8 /\
  SRGB (OutImage (Run 14 ColorJPEG)) = true /\
  RawData (OutImage (Run 14 ColorJPEG)) = [x01].
Proof.
  assert (GetBitDepth (ToyLoaded ColorJPEG) <= 8) as H8 by discriminate.
  assert (GetFormat (ToyLoaded ColorJPEG) = ERGBFormat.Gray \/
          GetFormat (ToyLoaded ColorJPEG) = ERGBFormat.RGBA) as Hf
      by (right; reflexivity).
  exact (conj (conj eq_refl (conj eq_refl (conj H8 Hf)))
           (proj2 (X9_jpeg_verdict 14 IsPowerOfTwo ToyWrappers ToyTGA ToyPNG
                     ColorJPEG (Len ColorJPEG) EmptyImage (ToyLoaded ColorJPEG)
                     eq_refl eq_refl) H8 Hf)).
Defined.

(** X10: a BMP. *)
Lemma X10_bmp_verdict_witness :
  (Classify ToyWrappers ToyTGA ColorBMP (Len ColorBMP) = IsBMP (ToyLoaded ColorBMP) /\
   IsImportResolutionValid 14 IsPowerOfTwo 3 5 true = true) /\
  Returned (Run 14 ColorBMP) = true /\
  Format (OutImage (Run 14 ColorBMP)) = TSF_BGRA8 /\
  RawData (OutImage (Run 14 ColorBMP)) = [x01] /\
  SRGB (OutImage (Run 14 ColorBMP)) = SRGB EmptyImage /\
  CompressionSettings (OutImage (Run 14 ColorBMP)) = CompressionSettings EmptyImage.
Proof.
  exact (conj (conj eq_refl eq_refl)
           (X10_bmp_verdict 14 IsPowerOfTwo ToyWrappers ToyTGA ToyPNG
              ColorBMP (Len ColorBMP) EmptyImage (ToyLoaded ColorBMP)
              eq_refl eq_refl)).
Defined.

(** X11: a grayscale TGA: the flag is cleared, the rest is the decoder's. *)
Lemma X11_tga_postprocessing_witness :
  (Classify ToyWrappers ToyTGA GrayTGA (Len GrayTGA)
   = IsTGA (AsTGAFileHeader ToyTGA GrayTGA) /\
   Returned (Run 14 GrayTGA) = true) /\
  OutError (Run 14 GrayTGA) = None /\
  SRGB (OutImage (Run 14 GrayTGA)) = false /\
  SRGB (snd (fst (DecompressTGA ToyTGA (AsTGAFileHeader ToyTGA GrayTGA) GrayTGA
                    EmptyImage))) = true.
Proof.
  destruct (X11_tga_postprocessing 14 IsPowerOfTwo ToyWrappers ToyTGA ToyPNG
              GrayTGA (Len GrayTGA) EmptyImage (AsTGAFileHeader ToyTGA GrayTGA)
              eq_refl eq_refl) as (_ & He & _ & Hs & _).
  exact (conj (conj eq_refl eq_refl) (conj He (conj (Hs eq_refl eq_refl) eq_refl))).
Defined.

(** X12: the image of a decoded PNG of 3 x 5. *)
Lemma X12_successful_import_size_witness :
  (Classify ToyWrappers ToyTGA GrayPNG (Len GrayPNG) = IsPNG (ToyLoaded GrayPNG) /\
   Returned (Run 14 GrayPNG) = true) /\
  SizeX (OutImage (Run 14 GrayPNG)) = 3 /\
  SizeY (OutImage (Run 14 GrayPNG)) = 5 /\
  3 <= 8192 /\ 5 <= 8192 /\
  3 <= MaximumSupportedResolution 14 /\ 5 <= MaximumSupportedResolution 14.
Proof.
  exact (conj (conj eq_refl eq_refl)
           (X12_successful_import_size 14 IsPowerOfTwo ToyWrappers ToyTGA ToyPNG
              GrayPNG (Len GrayPNG) EmptyImage (ToyLoaded GrayPNG)
              (or_introl eq_refl) eq_refl)).
Defined.

(** X13: the calls of a successful PNG import end with one [GetRaw]. *)
Lemma X13_calls_shape_witness :
  Returned (Run 14 GrayPNG) = true /\
  exists probes tail,
    Calls (Run 14 GrayPNG) = probes ++ tail /\
    Forall (fun c => IsProbe c = true) probes /\
    tail = [CallGetRaw EImageFormat.PNG].
Proof.
  destruct (X13_calls_shape 14 IsPowerOfTwo ToyWrappers ToyTGA ToyPNG
              GrayPNG (Len GrayPNG) EmptyImage) as (probes & tail & Hc & Hp & _ & Hok).
  exact (conj eq_refl
           (ex_intro _ probes (ex_intro _ tail
              (conj Hc (conj Hp (proj1 (Hok eq_refl))))))).
Defined.

(** X14: with [Length = -1] the header of a grayscale TGA is accepted. *)
Lemma X14_negative_length_passes_witness :
  (- 2 ^ 31 <= -1 < 0 /\ sizeof_FTGAFileHeader ToyTGA <= 2 ^ 63) /\
  IsSupportedTGA ToyTGA (-1) (AsTGAFileHeader ToyTGA GrayTGA) = true.
Proof.
  assert (- 2 ^ 31 <= -1 < 0) as HL by (split; [discriminate | reflexivity]).
  assert (sizeof_FTGAFileHeader ToyTGA <= 2 ^ 63) as Hs by discriminate.
  refine (conj (conj HL Hs) _).
  apply (proj2 (X14_negative_length_passes ToyTGA (-1)
                  (AsTGAFileHeader ToyTGA GrayTGA) HL Hs)).
  left. split; [reflexivity | right; left; reflexivity].
Defined.

(** X15: the file "a.tga" holding a grayscale TGA of 19 bytes. *)
Lemma X15_file_import_composition_witness :
  (FileExists (OneFile 19 3 5 (Some GrayTGA)) "a.tga" = true /\
   FileSize (OneFile 19 3 5 (Some GrayTGA)) "a.tga" <> INDEX_NONE /\
   FileSize (OneFile 19 3 5 (Some GrayTGA)) "a.tga" <= 999999999 /\
   LoadFileToArray (OneFile 19 3 5 (Some GrayTGA)) "a.tga" = Some GrayTGA) /\
  exists Image' cs,
    RunFile (OneFile 19 3 5 (Some GrayTGA)) "a.tga"
    = Finished Image' None
        ([CallFileExists "a.tga"; CallFileSize "a.tga";
          CallLoadFileToArray "a.tga"; CallGetStatData "a.tga"] ++ cs) /\
    SizeX Image' = 1.
Proof.
  assert (FileSize (OneFile 19 3 5 (Some GrayTGA)) "a.tga" <> INDEX_NONE)
    as Hne by discriminate.
  assert (FileSize (OneFile 19 3 5 (Some GrayTGA)) "a.tga" <= 999999999)
    as Hsmall by discriminate.
  refine (conj (conj eq_refl (conj Hne (conj Hsmall eq_refl))) _).
  do 2 eexists. split.
  - exact (X15_file_import_composition 14 IsPowerOfTwo ToyWrappers ToyTGA ToyPNG
             (OneFile 19 3 5 (Some GrayTGA)) "a.tga" EmptyImage GrayTGA
             eq_refl Hne Hsmall eq_refl).
  - reflexivity.
Defined.

(** X16: a file whose size is reported as [INDEX_NONE]. *)
Lemma X16_size_check_fails_iff_witness :
  (FileExists (OneFile (-1) 3 5 (Some GrayTGA)) "a.tga" = true /\
   FileSize (OneFile (-1) 3 5 (Some GrayTGA)) "a.tga" = INDEX_NONE) /\
  exists cs, RunFile (OneFile (-1) 3 5 (Some GrayTGA)) "a.tga" = CheckFailed cs.
Proof.
  exact (conj (conj eq_refl eq_refl)
           (proj2 (X16_size_check_fails_iff 14 IsPowerOfTwo ToyWrappers ToyTGA ToyPNG
                     (OneFile (-1) 3 5 (Some GrayTGA)) "a.tga" EmptyImage)
              (conj eq_refl eq_refl))).
Defined.

(** X17: the file holds a 16-bit PNG, created at 3 and modified at 5. *)
Lemma X17_failed_decode_keeps_timestamp_witness :
  (FileExists (OneFile 8 3 5 (Some Gray16PNG)) "a.tga" = true /\
   FileSize (OneFile 8 3 5 (Some Gray16PNG)) "a.tga" <> INDEX_NONE /\
   FileSize (OneFile 8 3 5 (Some Gray16PNG)) "a.tga" <= 999999999 /\
   LoadFileToArray (OneFile 8 3 5 (Some Gray16PNG)) "a.tga" = Some Gray16PNG) /\
  exists msg cs,
    RunFile (OneFile 8 3 5 (Some Gray16PNG)) "a.tga"
    = Finished (set_ModificationTime EmptyImage 5) (Some msg) cs /\
    In msg (ErrorsOf (IsPNG (ToyLoaded (Gray16PNG ++ [x00])))).
Proof.
  assert (FileSize (OneFile 8 3 5 (Some Gray16PNG)) "a.tga" <> INDEX_NONE)
    as Hne by discriminate.
  assert (FileSize (OneFile 8 3 5 (Some Gray16PNG)) "a.tga" <= 999999999)
    as Hsmall by discriminate.
  exact (conj (conj eq_refl (conj Hne (conj Hsmall eq_refl)))
           (X17_failed_decode_keeps_timestamp 14 IsPowerOfTwo ToyWrappers ToyTGA ToyPNG
              (OneFile 8 3 5 (Some Gray16PNG)) "a.tga" EmptyImage Gray16PNG
              eq_refl Hne Hsmall eq_refl Gray16PNG_file_is_no_TGA eq_refl)).
Defined.

(** X18: a file that is read and decoded. *)
Lemma X18_file_calls_order_witness :
  existsb IsDecoderCall (FileCalls (RunFile (OneFile 19 3 5 (Some GrayTGA)) "a.tga"))
  = true /\
  exists FileBytes rest,
    LoadFileToArray (OneFile 19 3 5 (Some GrayTGA)) "a.tga" = Some FileBytes /\
    FileCalls (RunFile (OneFile 19 3 5 (Some GrayTGA)) "a.tga")
    = [CallFileExists "a.tga"; CallFileSize "a.tga";
       CallLoadFileToArray "a.tga"; CallGetStatData "a.tga"] ++ rest.
Proof.
  exact (conj eq_refl
           (proj2 (proj2 (X18_file_calls_order 14 IsPowerOfTwo ToyWrappers ToyTGA ToyPNG
                            (OneFile 19 3 5 (Some GrayTGA)) "a.tga" EmptyImage))
              eq_refl)).
Defined.

(** X19: the same PNG imported into a fresh image and into one that holds
    the result of an earlier import. *)
Lemma X19_import_frame_witness :
  (forall TGA, Classify ToyWrappers ToyTGA GrayPNG (Len GrayPNG) <> IsTGA TGA) /\
  Returned (Run 14 GrayPNG)
  = Returned (ImportBufferAsImage 14 IsPowerOfTwo ToyWrappers ToyTGA ToyPNG
                GrayPNG (Len GrayPNG) (OutImage (Run 14 GrayTGA))) /\
  OutError (Run 14 GrayPNG)
  = OutError (ImportBufferAsImage 14 IsPowerOfTwo ToyWrappers ToyTGA ToyPNG
                GrayPNG (Len GrayPNG) (OutImage (Run 14 GrayTGA))) /\
  Calls (Run 14 GrayPNG)
  = Calls (ImportBufferAsImage 14 IsPowerOfTwo ToyWrappers ToyTGA ToyPNG
             GrayPNG (Len GrayPNG) (OutImage (Run 14 GrayTGA))).
Proof.
  exact (conj GrayPNG_is_no_TGA
           (X19_import_frame 14 IsPowerOfTwo ToyWrappers ToyTGA ToyPNG
              GrayPNG (Len GrayPNG) EmptyImage (OutImage (Run 14 GrayTGA))
              GrayPNG_is_no_TGA)).
Defined.

(** X20: the placeholder for [TSF_G16] has a mip of two zero bytes. *)
Lemma X20_dummy_texture_mip_witness :
  (IsInGameThread ToyEngine = true /\
   0 <= BlockBytes ToyEngine (SelectPixelFormat TSF_G16) < 2 ^ 32) /\
  exists Texture Mip,
    CreateDummyTexture ToyEngine "a.tga" TSF_G16 = Some Texture /\
    Mips (PlatformData Texture) = [Mip] /\
    Z.of_nat (List.length (BulkData Mip)) = 2.
Proof.
  assert (0 <= BlockBytes ToyEngine (SelectPixelFormat TSF_G16) < 2 ^ 32) as Hb
      by (split; [discriminate | reflexivity]).
  refine (conj (conj eq_refl Hb) _).
  destruct (X20_dummy_texture_mip ToyEngine "a.tga" TSF_G16 eq_refl Hb)
    as (Texture & Mip & Hc & _ & _ & Hm & Hl & _).
  exists Texture, Mip. split; [exact Hc|]. split; [exact Hm|].
  rewrite Hl. injection Hc as <-. reflexivity.
Defined.
